(** * SuppStackDSLDDBWorker: the DSLD archive-to-table synchroniser

    A shallow embedding of [main.py]: the module-level configuration
    guard, [download_and_unzip_data], [combine_csvs_to_dataframe],
    [upload_dataframe_to_supabase] and [main], written in a small
    state-and-exception monad over an explicit world (process
    environment, pandas object heap, destination table, console, and the
    trace of calls made to the outside), followed by the properties of
    the pipeline. *)

From Stdlib Require Import ZArith Ascii String List Lia.
From stdpp Require Import base tactics option list gmap strings pretty.

Local Open Scope string_scope.
Local Open Scope list_scope.

(** ** Python strings *)

Module PyStr.

(** [s.startswith(p)] *)
Fixpoint startswith (p s : string) : bool :=
  match p, s with
  | EmptyString, _ => true
  | String a p', String b s' => if Ascii.eqb a b then startswith p' s' else false
  | String _ _, EmptyString => false
  end.

(** [sub in s] *)
Fixpoint contains (sub s : string) : bool :=
  startswith sub s ||
  match s with
  | EmptyString => false
  | String _ s' => contains sub s'
  end.

(** [s.endswith(suffix)] *)
Definition endswith (suffix s : string) : bool :=
  (String.length suffix <=? String.length s)%nat &&
  String.eqb
    (String.substring (String.length s - String.length suffix)
                      (String.length suffix) s)
    suffix.

(** One double-quote character, and [q s] = the text [s] between two. *)
Definition dquote : string := String (Ascii.ascii_of_nat 34) EmptyString.
Definition quoted (s : string) : string := dquote ++ s ++ dquote.

End PyStr.

(** ** pandas tables *)

(** A cell of a table.  pandas has two placeholders for an absent value,
    [np.nan] and [pd.NA]; Python's [None] is the third, uniform one. *)
Inductive Cell : Type :=
| CNaN                      (* np.nan *)
| CNA                       (* pd.NA *)
| CNone                     (* None *)
| CStr (s : string)
| CInt (z : Z)
| CBool (b : bool)
| CFloat (m e : Z).         (* a finite float, m * 2^e *)

Global Instance Cell_eq_dec : EqDecision Cell.
Proof. solve_decision. Defined.

(** A [DataFrame]: column labels and rows of cells, one cell per column. *)
Record DataFrame : Type := mkDF {
  columns : list string;
  rows : list (list Cell)
}.

(** Every row has one cell per column (pandas keeps this by construction). *)
Definition df_wf (t : DataFrame) : Prop :=
  Forall (fun r => length r = length (columns t)) (rows t).

(** [pd.DataFrame()] *)
Definition DataFrame_new : DataFrame := mkDF [] [].

(** [len(df)] *)
Definition df_len (t : DataFrame) : nat := length (rows t).

(** [df.empty]: some axis has length 0. *)
Definition df_empty (t : DataFrame) : bool :=
  match columns t, rows t with
  | [], _ => true
  | _, [] => true
  | _, _ => false
  end.

(** A row-record, [dict] from column label to value. *)
Abbreviation PyRecord := (gmap string Cell).

Module Pandas.

(** The cell of row [r] under label [c] when the labels are [cols]
    (the first column carrying that label). *)
Fixpoint cell_at (cols : list string) (r : list Cell) (c : string) : option Cell :=
  match cols, r with
  | c' :: cols', v :: r' => if String.eqb c c' then Some v else cell_at cols' r' c
  | _, _ => None
  end.

(** Column union in order of first appearance (outer join, unsorted). *)
Definition add_columns (acc cols : list string) : list string :=
  fold_left (fun a c => if existsb (String.eqb c) a then a else a ++ [c]) cols acc.

Definition union_columns (ts : list DataFrame) : list string :=
  fold_left (fun a t => add_columns a (columns t)) ts [].

(** A row re-laid on new labels; a label the row lacks gets NaN. *)
Definition reindex (old new : list string) (r : list Cell) : list Cell :=
  map (fun c => match cell_at old r c with Some v => v | None => CNaN end) new.

(** A row with each cell converted by [f] under its label. *)
Definition cast (f : string -> Cell -> Cell) (cols : list string) (r : list Cell)
  : list Cell :=
  zip_with f cols r.

(** [pd.concat(dataframes, ignore_index=True)] on a non-empty list.
    Every row is re-laid on the combined labels, and every column is
    brought to one type for all the frames: [promote ts c v] is the cell
    [v] of column [c] after that conversion (an integer that meets
    floats or NaN, for one, becomes the nearest float). *)
Definition concat (promote : list DataFrame -> string -> Cell -> Cell)
           (ts : list DataFrame) : DataFrame :=
  let cols := union_columns ts in
  mkDF cols (flat_map (fun t => map (fun r => cast (promote ts) cols
                                               (reindex (columns t) cols r))
                                    (rows t)) ts).

(** [df.rename(columns=mapping)]: a label in the mapping is replaced,
    any other is kept. *)
Fixpoint mapping_get (mapping : list (string * string)) (c : string) : string :=
  match mapping with
  | [] => c
  | (k, v) :: m' => if String.eqb c k then v else mapping_get m' c
  end.

Definition rename (mapping : list (string * string)) (t : DataFrame) : DataFrame :=
  mkDF (map (mapping_get mapping) (columns t)) (rows t).

(** [df.replace({pd.NA: None, np.nan: None})], cell by cell. *)
Definition replace_cell (v : Cell) : Cell :=
  match v with
  | CNA => CNone
  | CNaN => CNone
  | _ => v
  end.

Definition replace_na_nan (t : DataFrame) : DataFrame :=
  mkDF (columns t) (map (map replace_cell) (rows t)).

(** [dict(zip(columns, row))]: a later pair with the same key wins. *)
Definition to_record (cols : list string) (r : list Cell) : PyRecord :=
  fold_left (fun d kv => <[fst kv := snd kv]> d) (combine cols r) ∅.

(** [df.to_dict(orient='records')] *)
Definition to_dict_records (t : DataFrame) : list PyRecord :=
  map (to_record (columns t)) (rows t).

End Pandas.

(** ** The world the script runs in *)

Definition bytes : Type := list Byte.byte.

(** Python exceptions, by the classes the script tells apart.
    [SystemExit] is not an [Exception]. *)
Inductive Exc : Type :=
| RequestException (msg : string)
| BadZipFile (msg : string)
| PyException (cls msg : string)
| SystemExit (code : option Z).

Definition is_Exception (e : Exc) : bool :=
  match e with
  | SystemExit _ => false
  | _ => true
  end.

(** [str(e)] *)
Definition str_exc (e : Exc) : string :=
  match e with
  | RequestException msg => msg
  | BadZipFile msg => msg
  | PyException _ msg => msg
  | SystemExit None => EmptyString
  | SystemExit (Some z) => pretty z
  end.

(** A member of the zip archive, as [infolist()] lists it.  [unreadable]
    is what [open()] raises on this entry (a password is needed, the
    compression is not supported, the local header is bad), if
    anything. *)
Record Member : Type := mkMember {
  filename : string;
  data : bytes;
  unreadable : option Exc
}.

(** A readable handle, the result of [zip_file.open(name)]. *)
Record Handle : Type := mkHandle {
  h_name : string;
  h_data : bytes
}.

(** An HTTP response once the transfer is over; [r_url] is the address
    the answer came from. *)
Record Response : Type := mkResponse {
  status_code : Z;
  reason : string;
  r_url : string;
  content : bytes
}.

(** The handle [create_client] returns. *)
Record Client : Type := mkClient {
  c_url : string;
  c_key : string
}.

(** [client.table(t).upsert(rows, on_conflict=c).execute()] as one request. *)
Record Request : Type := mkRequest {
  req_table : string;
  req_on_conflict : string;
  req_rows : list PyRecord
}.

(** The rows of the destination table. *)
Abbreviation Store := (list PyRecord).

(** Calls that reach outside the interpreter, in the order made. *)
Inductive Event : Type :=
| EvHttpGet (url : string)
| EvReadCsv (name : string)
| EvCreateClient (url key : string)
| EvUpsert (client : Client) (req : Request)
| EvSleep (seconds : nat).

Record World : Type := mkWorld {
  environ : gmap string string;      (* os.environ *)
  heap : gmap positive DataFrame;    (* live DataFrame objects *)
  remote : Store;                    (* the destination table *)
  stdout : list string;              (* printed lines, oldest first *)
  trace : list Event                 (* oldest first *)
}.

(** ** A state-and-exception monad *)

Inductive Result (A : Type) : Type :=
| Return (a : A)
| Raise (e : Exc).
Arguments Return {A} a.
Arguments Raise {A} e.

Definition M (A : Type) : Type := World -> Result A * World.

Definition ret {A} (a : A) : M A := fun w => (Return a, w).

Definition bind {A B} (c : M A) (k : A -> M B) : M B :=
  fun w =>
    match c w with
    | (Return a, w') => k a w'
    | (Raise e, w') => (Raise e, w')
    end.

Definition raise {A} (e : Exc) : M A := fun w => (Raise e, w).

Declare Scope py_scope.
Delimit Scope py_scope with py.
Notation "'let*' x ':=' c 'in' k" := (bind c (fun x => k))
  (at level 10, x name, c at level 100, k at level 200) : py_scope.
Notation "'let*' ' p ':=' c 'in' k" := (bind c (fun x => match x with p => k end))
  (at level 10, p pattern, c at level 100, k at level 200) : py_scope.
Notation "c '>>' k" := (bind c (fun _ => k))
  (at level 100, k at level 200, right associativity) : py_scope.
Local Open Scope py_scope.

(** [try: body except <classes accepted by catches> as e: handler e] *)
Definition try_except {A} (body : M A) (catches : Exc -> bool) (handler : Exc -> M A) : M A :=
  fun w =>
    match body w with
    | (Return a, w') => (Return a, w')
    | (Raise e, w') => if catches e then handler e w' else (Raise e, w')
    end.

(** [for x in l: body x] *)
Fixpoint for_each {A} (l : list A) (body : A -> M unit) : M unit :=
  match l with
  | [] => ret tt
  | x :: l' => body x >> for_each l' body
  end.

(** A loop that threads the value of a local variable. *)
Fixpoint for_fold {A S} (l : list A) (body : S -> A -> M S) (s : S) : M S :=
  match l with
  | [] => ret s
  | x :: l' => let* s' := body s x in for_fold l' body s'
  end.

(** [[f(x) for x in l]] *)
Fixpoint list_comp {A B} (l : list A) (f : A -> M B) : M (list B) :=
  match l with
  | [] => ret []
  | x :: l' => let* y := f x in let* ys := list_comp l' f in ret (y :: ys)
  end.

Definition print (line : string) : M unit :=
  fun w => (Return tt,
            mkWorld (environ w) (heap w) (remote w) (stdout w ++ [line]) (trace w)).

Definition emit (ev : Event) : M unit :=
  fun w => (Return tt,
            mkWorld (environ w) (heap w) (remote w) (stdout w) (trace w ++ [ev])).

(** A new DataFrame object; its reference is unused so far. *)
Definition alloc (t : DataFrame) : M positive :=
  fun w => let l := fresh (dom (heap w)) in
           (Return l,
            mkWorld (environ w) (<[l := t]> (heap w)) (remote w) (stdout w) (trace w)).

Definition deref (l : positive) : M DataFrame :=
  fun w => match heap w !! l with
           | Some t => (Return t, w)
           | None => (Raise (PyException "ReferenceError" "no such object"), w)
           end.

(** An update of the object at [l], in place. *)
Definition mutate (l : positive) (f : DataFrame -> DataFrame) : M unit :=
  fun w => (Return tt,
            mkWorld (environ w) (alter f l (heap w)) (remote w) (stdout w) (trace w)).

(** [range(start, stop, step)] for a positive step, by iteration. *)
Fixpoint range_from (fuel i stop step : nat) : list nat :=
  match fuel with
  | O => []
  | S fuel' => if (i <? stop)%nat then i :: range_from fuel' (i + step) stop step else []
  end.

Definition py_range (start stop step : nat) : list nat :=
  range_from stop start stop step.

(** [l[i:j]] for in-range or overshooting non-negative bounds. *)
Definition py_slice {A} (i j : nat) (l : list A) : list A :=
  take (j - i) (drop i l).

(** Python truthiness of an [Optional[str]]. *)
Definition truthy (o : option string) : bool :=
  match o with
  | None => false
  | Some EmptyString => false
  | Some _ => true
  end.

(** ** The script *)

Definition DOWNLOAD_URL : string :=
  "https://api.ods.od.nih.gov/dsld/s3/data/DSLD-full-database-CSV.zip".
Definition TARGET_FILENAME_CONTAINS : string := "ProductOverview".

(** The condition of line 43 on a member name. *)
Definition matches (name : string) : bool :=
  PyStr.contains TARGET_FILENAME_CONTAINS name && PyStr.endswith ".csv" name.

(** [zip_file.getinfo(name)]: the archive's name table keeps, for a name,
    the entry listed last under it. *)
Definition zip_getinfo (members : list Member) (name : string) : option Member :=
  last (List.filter (fun m => String.eqb (filename m) name) members).

(** [zip_file.open(name)] *)
Definition zip_open (members : list Member) (name : string) : M Handle :=
  match zip_getinfo members name with
  | Some m =>
      match unreadable m with
      | None => ret (mkHandle (filename m) (data m))
      | Some e => raise e
      end
  | None => raise (PyException "KeyError" name)
  end.

(** The text of the [HTTPError] of an error status. *)
Definition http_error_msg (r : Response) : string :=
  pretty (status_code r)
  +:+ (if (status_code r <? 500)%Z then " Client Error: " else " Server Error: ")
  +:+ reason r +:+ " for url: " +:+ r_url r.

(** [response.raise_for_status()]: 4xx and 5xx raise [HTTPError], a
    [RequestException]. *)
Definition raise_for_status (r : Response) : M unit :=
  if ((400 <=? status_code r) && (status_code r <? 600))%Z
  then raise (RequestException (http_error_msg r))
  else ret tt.

Definition column_mapping : list (string * string) :=
  [ ("URL", "URL");
    ("DSLD ID", "DSLD ID");
    ("Product Name", "Product Name");
    ("Brand Name", "Brand Name");
    ("Bar Code", "Bar Code");
    ("Net Contents", "Net Contents");
    ("Serving Size", "Serving Size");
    ("Product Type [LanguaL]", "Product Type [LanguaL]");
    ("Supplement Form [LanguaL]", "Supplement Form [LanguaL]");
    ("Date Entered into DSLD", "Date Entered into DSLD");
    ("Market Status", "Market Status");
    ("Suggested Use", "Suggested Use") ].

Definition batch_size : nat := 500.
Definition TABLE : string := "dsld_supplements".
Definition ON_CONFLICT : string := PyStr.quoted "DSLD ID".

(** The request of line 129 for one batch. *)
Definition upsert_request (batch : list PyRecord) : Request :=
  mkRequest TABLE ON_CONFLICT batch.

Section Script.

(** What lies outside the script: the [.env] file, the HTTP server, the
    zip reader, the CSV parser, the client constructor and the remote
    store.  A left value is the exception the call raises. *)
Variable dotenv_file : list (string * string).
Variable http_get : string -> string + Response.
Variable zip_parse : bytes -> Exc + list Member.
Variable read_csv : bytes -> Exc + DataFrame.
Variable promote : list DataFrame -> string -> Cell -> Cell.
Variable new_client : string -> string -> Exc + Client.
Variable remote_execute : Client -> Request -> Store -> Exc + (Store * list PyRecord).

(** The bindings of the [.env] file: of two lines for one name the
    later one counts. *)
Definition dotenv_values : gmap string string :=
  fold_left (fun d kv => <[fst kv := snd kv]> d) dotenv_file ∅.

(** [load_dotenv()]: the bindings of the file are added to the
    environment; a variable already set there is kept. *)
Definition load_dotenv : M unit :=
  fun w =>
    (Return tt,
     mkWorld (environ w ∪ dotenv_values) (heap w) (remote w) (stdout w) (trace w)).

(** [os.environ.get(name)] *)
Definition environ_get (name : string) : M (option string) :=
  fun w => (Return (environ w !! name), w).

(** [requests.get(url, stream=True)] *)
Definition requests_get (url : string) : M Response :=
  emit (EvHttpGet url) >>
  match http_get url with
  | inl msg => raise (RequestException msg)
  | inr r => ret r
  end.

(** [zipfile.ZipFile(io.BytesIO(content))]: the entries, or what the
    constructor raises on this payload ([BadZipFile] or another
    exception). *)
Definition ZipFile (payload : bytes) : M (list Member) :=
  match zip_parse payload with
  | inr members => ret members
  | inl e => raise e
  end.

(** [pd.read_csv(file, low_memory=False)] *)
Definition pd_read_csv (file : Handle) : M DataFrame :=
  emit (EvReadCsv (h_name file)) >>
  match read_csv (h_data file) with
  | inl e => raise e
  | inr t => ret t
  end.

(** [create_client(url, key)] *)
Definition create_client (url key : string) : M Client :=
  emit (EvCreateClient url key) >>
  match new_client url key with
  | inl e => raise e
  | inr c => ret c
  end.

(** [client.table(..).upsert(..).execute()]; the value is [response.data]. *)
Definition execute (client : Client) (req : Request) : M (list PyRecord) :=
  emit (EvUpsert client req) >>
  fun w =>
    match remote_execute client req (remote w) with
    | inl e => (Raise e, w)
    | inr (s', d) => (Return d, mkWorld (environ w) (heap w) s' (stdout w) (trace w))
    end.

(** [time.sleep(n)] *)
Definition sleep (n : nat) : M unit := emit (EvSleep n).

(** Lines 12-24.  The value is the pair of module globals
    [(SUPABASE_URL, SUPABASE_KEY)]. *)
Definition module_init : M (string * string) :=
  load_dotenv >>
  let* url := environ_get "SUPABASE_URL" in
  let* key := environ_get "SUPABASE_SERVICE_KEY" in
  if negb (truthy url) || negb (truthy key) then
    print "Error: Supabase URL and Key must be set in your .env file." >>
    raise (SystemExit None)
  else
    ret (default EmptyString url, default EmptyString key).

(** The body of the loop of lines 42-46; [csv_files] is the list built
    so far. *)
Definition select_member (zip_file : list Member) (csv_files : list Handle)
           (file_info : Member) : M (list Handle) :=
  if matches (filename file_info) then
    print ("Found matching file: " ++ filename file_info) >>
    let* f := zip_open zip_file (filename file_info) in
    ret (csv_files ++ [f])
  else ret csv_files.

(** Lines 36-52, the body of the [try]. *)
Definition download_try (url : string) : M (list Handle) :=
  let* response := requests_get url in
  raise_for_status response >>
  let* zip_file := ZipFile (content response) in
  let* csv_files := for_fold zip_file (select_member zip_file) [] in
  match csv_files with
  | [] =>
      print "No 'ProductOverview' CSV files found in the zip archive." >>
      ret []
  | _ => ret csv_files
  end.

(** Lines 29-59. *)
Definition download_and_unzip_data (url : string) : M (list Handle) :=
  print ("Downloading data from " ++ url ++ "...") >>
  try_except
    (download_try url)
    (fun e => match e with
              | RequestException _ | BadZipFile _ => true
              | _ => false
              end)
    (fun e => match e with
              | RequestException _ =>
                  print ("Error downloading the file: " ++ str_exc e) >> ret []
              | _ =>
                  print "Error: The downloaded file is not a valid zip file." >> ret []
              end).

(** Lines 62-98.  The combined table is a new object; the rename
    updates it in place. *)
Definition combine_csvs_to_dataframe (csv_files : list Handle) : M positive :=
  match csv_files with
  | [] => alloc DataFrame_new
  | _ =>
      print "Combining CSV files into a single DataFrame..." >>
      let* dataframes := list_comp csv_files pd_read_csv in
      let* combined_df := alloc (Pandas.concat promote dataframes) in
      mutate combined_df (Pandas.rename column_mapping) >>
      let* t := deref combined_df in
      print ("Successfully combined data. Total rows: " ++ pretty (df_len t)) >>
      ret combined_df
  end.

(** The body of the loop of lines 119-135 for index [i]. *)
Definition upload_batch (client : Client) (records : list PyRecord)
           (total_records : nat) (i : nat) : M unit :=
  let batch := py_slice i (i + batch_size) records in
  print ("Uploading batch " ++ pretty (i / batch_size + 1)%nat ++ " of "
         ++ pretty ((total_records + batch_size - 1) / batch_size)%nat
         ++ "... (" ++ pretty (length batch) ++ " records)") >>
  let* response_data := execute client (upsert_request batch) in
  match response_data with
  | [] => ret tt
  | _ => print ("Batch " ++ pretty (i / batch_size + 1)%nat ++ " uploaded successfully.")
  end >>
  sleep 1.

(** Lines 101-141. *)
Definition upload_dataframe_to_supabase (df : positive) (client : Client) : M unit :=
  let* t := deref df in
  if df_empty t then
    print "DataFrame is empty. Nothing to upload."
  else
    print "Preparing to upload data to Supabase in batches..." >>
    try_except
      (let* df_cleaned := alloc (Pandas.replace_na_nan t) in
       let* tc := deref df_cleaned in
       let records := Pandas.to_dict_records tc in
       let total_records := length records in
       for_each (py_range 0 total_records batch_size)
                (upload_batch client records total_records) >>
       print "All batches uploaded successfully.")
      is_Exception
      (fun e => print ("An error occurred during the Supabase upload: " ++ str_exc e)).

(** Lines 144-162, with the module globals as arguments. *)
Definition main (SUPABASE_URL SUPABASE_KEY : string) : M unit :=
  let* csv_file_objects := download_and_unzip_data DOWNLOAD_URL in
  match csv_file_objects with
  | [] => print "Script finished due to no files being found."
  | _ =>
      let* product_dataframe := combine_csvs_to_dataframe csv_file_objects in
      let* supabase_client := create_client SUPABASE_URL SUPABASE_KEY in
      upload_dataframe_to_supabase product_dataframe supabase_client >>
      print "Script finished."
  end.

(** The destination after the batches [bs] went through one by one,
    or the first exception the remote store answers with. *)
Fixpoint commit (client : Client) (bs : list (list PyRecord)) (s : Store) : Exc + Store :=
  match bs with
  | [] => inr s
  | b :: bs' =>
      match remote_execute client (upsert_request b) s with
      | inl e => inl e
      | inr (s', _) => commit client bs' s'
      end
  end.

(** The module run as a script: the guard, then [main()]. *)
Definition script : M unit :=
  let* '(url, key) := module_init in
  main url key.

End Script.

(** The exit status the interpreter hands to the operating system. *)
Definition exit_status {A} (r : Result A) : Z :=
  match r with
  | Return _ => 0
  | Raise (SystemExit None) => 0
  | Raise (SystemExit (Some z)) => z mod 256
  | Raise _ => 1
  end.

(** ** Vocabulary of the statements *)

(** The row lists of the upsert requests in a trace, oldest first. *)
Definition upsert_calls (tr : list Event) : list (list PyRecord) :=
  omap (fun ev => match ev with
                  | EvUpsert _ req => Some (req_rows req)
                  | _ => None
                  end) tr.

(** What one passage of the upload loop adds to the trace. *)
Definition batch_events (client : Client) (b : list PyRecord) : list Event :=
  [EvUpsert client (upsert_request b); EvSleep 1].

(** The [k]-th batch of [records]: [records[500k : 500k + 500]]. *)
Definition batch (records : list PyRecord) (k : nat) : list PyRecord :=
  py_slice (k * batch_size) (k * batch_size + batch_size) records.

(** The smallest [n] with [n * b >= a]. *)
Definition ceil_div (a b : nat) : nat := (a + b - 1) / b.

(** The records the writer builds from the table [t] (lines 113-114). *)
Definition records_of (t : DataFrame) : list PyRecord :=
  Pandas.to_dict_records (Pandas.replace_na_nan t).

(** Neither placeholder of pandas occurs in the record. *)
Definition record_clean (r : PyRecord) : Prop :=
  forall k v, r !! k = Some v -> v <> CNaN /\ v <> CNA.

(** A member the fetcher selects. *)
Definition selected (m : Member) : bool := matches (filename m).

(** The handle onto the member itself. *)
Definition handle_of (m : Member) : Handle := mkHandle (filename m) (data m).

(** The handle the archive opens under the name of [m]. *)
Definition opened (members : list Member) (m : Member) : Handle :=
  match zip_getinfo members (filename m) with
  | Some m' => handle_of m'
  | None => handle_of m
  end.

(** [open()] takes the entry the archive keeps under the name of [m]. *)
Definition openable (members : list Member) (m : Member) : Prop :=
  forall m', zip_getinfo members (filename m) = Some m' -> unreadable m' = None.


(** ** The destination table *)

Module Destination.

(** The column an [on_conflict] argument names: a quoted identifier
    without its quotes. *)
Definition conflict_column (on_conflict : string) : string :=
  match on_conflict with
  | String a rest =>
      if Ascii.eqb a (Ascii.ascii_of_nat 34) && PyStr.endswith PyStr.dquote rest
      then String.substring 0 (String.length rest - 1) rest
      else on_conflict
  | EmptyString => on_conflict
  end.

(** Modelled from the spec: the remote store's row-level upsert, which
    is a service outside the repository.  A row whose value in the
    conflict column already occurs in the table overwrites that row in
    place; a row with a new value is inserted after the others. *)
Fixpoint upsert_row (col : string) (r : PyRecord) (tbl : Store) : Store :=
  match tbl with
  | [] => [r]
  | x :: tbl' =>
      if decide (x !! col = r !! col) then r :: tbl'
      else x :: upsert_row col r tbl'
  end.

Definition upsert_rows (col : string) (rs : list PyRecord) (tbl : Store) : Store :=
  fold_left (fun tb r => upsert_row col r tb) rs tbl.

(** Modelled from the spec: one upsert request against the store, which
    holds the single table [dsld_supplements]; the answer carries the
    rows written. *)
Definition execute (_ : Client) (req : Request) (tbl : Store)
  : Exc + (Store * list PyRecord) :=
  if String.eqb (req_table req) TABLE then
    inr (upsert_rows (conflict_column (req_on_conflict req)) (req_rows req) tbl,
         req_rows req)
  else inl (PyException "APIError" "relation does not exist").

(** The conflict keys of the rows of a table. *)
Definition ids (tbl : Store) : list (option Cell) := map (fun r => r !! "DSLD ID") tbl.

End Destination.

(** ** A small concrete world, for running the script *)

Module Demo.

Definition row (i : nat) : list Cell :=
  [CInt (Z.of_nat i); if Nat.even i then CNaN else CStr "Zinc"; CNA].

Definition table (n : nat) : DataFrame :=
  mkDF ["DSLD ID"; "Product Name"; "Bar Code"] (map row (seq 0 n)).

(** A toy parser: a file of [n] bytes holds [n] rows. *)
Definition read_csv (b : bytes) : Exc + DataFrame := inr (table (length b)).

Definition new_client (url key : string) : Exc + Client := inr (mkClient url key).

Definition client : Client := mkClient "https://db.example" "secret".

Definition dotenv_file : list (string * string) :=
  [("SUPABASE_URL", "https://db.example"); ("SUPABASE_SERVICE_KEY", "secret")].

Definition members : list Member :=
  [ mkMember "ProductOverview_1.csv" (repeat Byte.x00 3) None;
    mkMember "LabelStatements_1.csv" (repeat Byte.x00 5) None;
    mkMember "ProductOverview_2.csv" (repeat Byte.x00 2) None;
    mkMember "ProductOverview_notes.txt" [] None ].

(** Two entries listed under one name. *)
Definition twins : list Member :=
  [ mkMember "ProductOverview_1.csv" [Byte.x01] None;
    mkMember "ProductOverview_1.csv" [Byte.x02] None ].

Definition http_ok (url : string) : string + Response :=
  inr (mkResponse 200 "OK" url []).
Definition http_404 (url : string) : string + Response :=
  inr (mkResponse 404 "Not Found" url []).
Definition http_down (_ : string) : string + Response := inl "Connection refused".

Definition unzip (_ : bytes) : Exc + list Member := inr members.
Definition unzip_twins (_ : bytes) : Exc + list Member := inr twins.


(** No conversion: every column already has one type. *)
Definition keep (_ : list DataFrame) (_ : string) (v : Cell) : Cell := v.

(** Integers become floats, as in a column that also holds floats or
    NaN. *)
Definition to_float (_ : list DataFrame) (_ : string) (v : Cell) : Cell :=
  match v with
  | CInt z => CFloat z 0
  | _ => v
  end.

(** A store that appends what it is sent. *)
Definition accepting (_ : Client) (req : Request) (s : Store)
  : Exc + (Store * list PyRecord) :=
  inr (s ++ req_rows req, req_rows req).

(** A store that refuses a batch carrying the ID 600 and appends any other. *)
Definition refusing_600 (_ : Client) (req : Request) (s : Store)
  : Exc + (Store * list PyRecord) :=
  if existsb (fun r => bool_decide (r !! "DSLD ID" = Some (CInt 600))) (req_rows req)
  then inl (PyException "APIError" "statement timeout")
  else inr (s ++ req_rows req, req_rows req).

(** A store that refuses everything. *)
Definition refusing (_ : Client) (_ : Request) (_ : Store)
  : Exc + (Store * list PyRecord) :=
  inl (PyException "APIError" "permission denied").

Definition empty_world : World := mkWorld ∅ ∅ [] [] [].

(** A world whose destination already holds a row with ID 1, and
    which holds a table of [n] rows at reference 1. *)
Definition stocked_world (n : nat) : World :=
  mkWorld ∅ {[ 1%positive := table n ]}
          [ {[ "DSLD ID" := CInt 1; "Product Name" := CStr "Old name" ]} ] [] [].

(** A world holding one table of [n] rows at reference 1. *)
Definition world_with (n : nat) : World :=
  mkWorld ∅ {[ 1%positive := table n ]} [] [] [].

(** A world whose process environment holds both variables. *)
Definition configured_world : World :=
  mkWorld {[ "SUPABASE_URL" := "https://db.example";
             "SUPABASE_SERVICE_KEY" := "secret" ]} ∅ [] [] [].

(** A toy parser that, like pandas, refuses a file without any data. *)
Definition read_csv_strict (b : bytes) : Exc + DataFrame :=
  match b with
  | [] => inl (PyException "EmptyDataError" "No columns to parse from file")
  | _ => inr (table (length b))
  end.

(** An archive whose second matching member is an empty file. *)
Definition members_gap : list Member :=
  [ mkMember "ProductOverview_1.csv" (repeat Byte.x00 3) None;
    mkMember "ProductOverview_2.csv" [] None;
    mkMember "ProductOverview_3.csv" (repeat Byte.x00 2) None ].

Definition unzip_gap (_ : bytes) : Exc + list Member := inr members_gap.

(** A client constructor that rejects its arguments. *)
Definition new_client_bad (_ _ : string) : Exc + Client :=
  inl (PyException "SupabaseException" "Invalid URL").

(** A store whose call is cut short by an exit request. *)
Definition interrupted (_ : Client) (_ : Request) (_ : Store)
  : Exc + (Store * list PyRecord) :=
  inl (SystemExit (Some 130%Z)).

(** Rows without a single column. *)
Definition columnless : DataFrame := mkDF [] [[]; []].

(** A file with fewer columns than [table], and one of its own. *)
Definition narrow : DataFrame :=
  mkDF ["DSLD ID"; "Market Status"] [[CInt 7; CStr "On Market"]].

End Demo.

(** ** Ranges, slices and batches *)

Section Batching.

Lemma ceil_div_0 b : 0 < b -> ceil_div 0 b = 0.
Proof.
  intros Hb. unfold ceil_div. apply Nat.div_small. lia.
Qed.

Lemma ceil_div_step a b : 0 < b -> 0 < a -> ceil_div a b = S (ceil_div (a - b) b).
Proof.
  intros Hb Ha. unfold ceil_div.
  destruct (Nat.le_gt_cases b a) as [Hle | Hlt].
  - replace (a + b - 1) with ((a - b + b - 1) + 1 * b) by lia.
    rewrite Nat.div_add by lia. lia.
  - replace (a - b) with 0 by lia.
    rewrite (Nat.div_small (0 + b - 1)) by lia.
    symmetry. apply (Nat.div_unique _ _ 1 (a - 1)); lia.
Qed.

(** [k < ceil_div a b] exactly when the [k]-th block starts inside [a]. *)
Lemma lt_ceil_div a b k : 0 < b -> k < ceil_div a b <-> k * b < a.
Proof.
  intros Hb. revert a. induction k as [|k IH]; intros a.
  - destruct a as [|a].
    + rewrite ceil_div_0 by done. lia.
    + rewrite ceil_div_step by lia. lia.
  - destruct (Nat.eq_dec a 0) as [-> | Ha].
    + rewrite ceil_div_0 by done. lia.
    + rewrite ceil_div_step by lia.
      specialize (IH (a - b)). lia.
Qed.

Lemma range_from_seq fuel i stop step :
  0 < step -> stop - i <= fuel ->
  range_from fuel i stop step
  = map (fun k => i + k * step) (seq 0 (ceil_div (stop - i) step)).
Proof.
  intros Hstep. revert i. induction fuel as [|fuel IH]; intros i Hfuel; simpl.
  - replace (stop - i) with 0 by lia. by rewrite ceil_div_0.
  - destruct (Nat.ltb_spec i stop) as [Hlt | Hge].
    + rewrite ceil_div_step by lia. simpl seq. simpl map.
      rewrite IH by lia. rewrite <- seq_shift, map_map.
      f_equal; [lia |].
      replace (stop - i - step) with (stop - (i + step)) by lia.
      apply map_ext. intros k. lia.
    + replace (stop - i) with 0 by lia. by rewrite ceil_div_0.
Qed.

Lemma py_range_seq stop step :
  0 < step ->
  py_range 0 stop step = map (fun k => k * step) (seq 0 (ceil_div stop step)).
Proof.
  intros Hstep. unfold py_range. rewrite range_from_seq by lia.
  by rewrite Nat.sub_0_r.
Qed.

Context {A : Type}.
Implicit Types l : list A.

Lemma py_slice_block l i b : py_slice i (i + b) l = take b (drop i l).
Proof. unfold py_slice. f_equal. lia. Qed.

Lemma concat_blocks b n l :
  length l <= n * b ->
  concat (map (fun k => take b (drop (k * b) l)) (seq 0 n)) = l.
Proof.
  revert l. induction n as [|n IH]; intros l Hlen.
  - destruct l; [done | simpl in Hlen; lia].
  - simpl seq. rewrite <- seq_shift, map_cons, map_map. simpl concat.
    rewrite drop_0.
    rewrite (map_ext _ (fun k => take b (drop (k * b) (drop b l)))).
    + rewrite IH; [apply take_drop |]. rewrite length_drop. lia.
    + intros k. rewrite drop_drop. do 2 f_equal; lia.
Qed.

Lemma block_length b k l :
  S k * b <= length l -> length (take b (drop (k * b) l)) = b.
Proof.
  intros H. rewrite length_take, length_drop. simpl in H. lia.
Qed.

Lemma block_nonempty b n l :
  0 < b -> n < ceil_div (length l) b -> take b (drop (n * b) l) <> [].
Proof.
  intros Hb Hn E. apply (f_equal length) in E.
  rewrite length_take, length_drop in E. simpl in E.
  apply lt_ceil_div in Hn; lia.
Qed.

End Batching.

(** ** The primitive steps *)

Section Steps.

Lemma bind_Return {A B} (c : M A) (k : A -> M B) w a w' :
  c w = (Return a, w') -> bind c k w = k a w'.
Proof. intros H. unfold bind. by rewrite H. Qed.

Lemma bind_Raise {A B} (c : M A) (k : A -> M B) w e w' :
  c w = (Raise e, w') -> bind c k w = (Raise e, w').
Proof. intros H. unfold bind. by rewrite H. Qed.

Lemma try_Return {A} (c : M A) catches handler w a w' :
  c w = (Return a, w') -> try_except c catches handler w = (Return a, w').
Proof. intros H. unfold try_except. by rewrite H. Qed.

Lemma try_Raise {A} (c : M A) catches handler w e w' :
  c w = (Raise e, w') -> catches e = true ->
  try_except c catches handler w = handler e w'.
Proof. intros H Hc. unfold try_except. by rewrite H, Hc. Qed.

Lemma try_escape {A} (c : M A) catches handler w e w' :
  c w = (Raise e, w') -> catches e = false ->
  try_except c catches handler w = (Raise e, w').
Proof. intros H Hc. unfold try_except. by rewrite H, Hc. Qed.

(** A freshly allocated reference leaves every live object alone. *)
Lemma alloc_frame t w l :
  is_Some (heap w !! l) ->
  heap (snd (alloc t w)) !! l = heap w !! l.
Proof.
  intros Hl. unfold alloc. simpl. apply lookup_insert_ne.
  intros <-. apply elem_of_dom in Hl. by apply is_fresh in Hl.
Qed.

Lemma alloc_lookup t w :
  heap (snd (alloc t w)) !! fresh (dom (heap w)) = Some t.
Proof. unfold alloc. simpl. apply lookup_insert_eq. Qed.

End Steps.

(** ** The upload loop *)

Section Loop.

Variable remote_execute : Client -> Request -> Store -> Exc + (Store * list PyRecord).
Variable client : Client.
Variable records : list PyRecord.
Variable total : nat.

Local Abbreviation body := (upload_batch remote_execute client records total).
Local Abbreviation slice := (fun i => py_slice i (i + batch_size) records).

Lemma upload_batch_ok i w s' d :
  remote_execute client (upsert_request (slice i)) (remote w) = inr (s', d) ->
  exists w', body i w = (Return tt, w')
    /\ trace w' = trace w ++ batch_events client (slice i)
    /\ remote w' = s' /\ heap w' = heap w /\ environ w' = environ w.
Proof.
  intros H. unfold upload_batch, execute, sleep, print, emit, bind, ret.
  cbn [remote trace heap environ stdout]. rewrite H.
  destruct d; eexists; (split; [reflexivity |]);
    cbn [remote trace heap environ stdout batch_events];
    rewrite <- app_assoc; done.
Qed.

Lemma upload_batch_fail i w e :
  remote_execute client (upsert_request (slice i)) (remote w) = inl e ->
  exists w', body i w = (Raise e, w')
    /\ trace w' = trace w ++ [EvUpsert client (upsert_request (slice i))]
    /\ remote w' = remote w /\ heap w' = heap w /\ environ w' = environ w.
Proof.
  intros H. unfold upload_batch, execute, sleep, print, emit, bind, ret.
  cbn [remote trace heap environ stdout]. rewrite H.
  eexists; split; [reflexivity |]. done.
Qed.

(** Whatever the store answers, the loop only sends slices of
    [records], sleeps, and leaves the objects and the environment
    alone. *)
Lemma upload_loop_frame idx w :
  exists new,
    trace (snd (for_each idx body w)) = trace w ++ new
    /\ Forall (fun ev => ev = EvSleep 1
                         \/ exists i, ev = EvUpsert client (upsert_request (slice i))) new
    /\ heap (snd (for_each idx body w)) = heap w
    /\ environ (snd (for_each idx body w)) = environ w.
Proof.
  revert w. induction idx as [|i idx IH]; intros w.
  - exists []. simpl. by rewrite app_nil_r.
  - simpl for_each.
    destruct (remote_execute client (upsert_request (slice i)) (remote w))
      as [e | [s' d]] eqn:E.
    + destruct (upload_batch_fail i w e E) as (w' & Hrun & Htr & _ & Hh & He).
      rewrite (bind_Raise _ _ _ _ _ Hrun). simpl.
      exists [EvUpsert client (upsert_request (slice i))].
      repeat split; try done.
      constructor; [right; by exists i | constructor].
    + destruct (upload_batch_ok i w s' d E) as (w' & Hrun & Htr & _ & Hh & He).
      rewrite (bind_Return _ _ _ _ _ Hrun).
      destruct (IH w') as (new & Htr' & Hall & Hh' & He').
      exists (batch_events client (slice i) ++ new).
      rewrite Htr', Htr, Hh', Hh, He', He, <- app_assoc.
      repeat split; try done.
      apply Forall_app. split; [| done].
      unfold batch_events. apply Forall_cons. split; [right; by exists i |].
      apply Forall_cons. split; [by left | constructor].
Qed.

Lemma upload_loop_ok idx w s' :
  commit remote_execute client (map slice idx) (remote w) = inr s' ->
  exists w', for_each idx body w = (Return tt, w')
    /\ trace w' = trace w ++ flat_map (fun i => batch_events client (slice i)) idx
    /\ remote w' = s' /\ heap w' = heap w.
Proof.
  revert w. induction idx as [|i idx IH]; intros w Hc.
  - simpl in Hc. injection Hc as <-. exists w. simpl. by rewrite app_nil_r.
  - simpl in Hc.
    destruct (remote_execute client (upsert_request (slice i)) (remote w))
      as [e | [s1 d]] eqn:E; [done |].
    destruct (upload_batch_ok i w s1 d E) as (w1 & Hrun & Htr & Hr & Hh & _).
    simpl for_each. rewrite (bind_Return _ _ _ _ _ Hrun).
    rewrite <- Hr in Hc. destruct (IH w1 Hc) as (w' & Hrun' & Htr' & Hr' & Hh').
    exists w'. rewrite Hrun', Htr', Htr, Hh', Hh, <- app_assoc. done.
Qed.

Lemma upload_loop_fail idx1 i idx2 w sk e :
  commit remote_execute client (map slice idx1) (remote w) = inr sk ->
  remote_execute client (upsert_request (slice i)) sk = inl e ->
  exists w', for_each (idx1 ++ i :: idx2) body w = (Raise e, w')
    /\ trace w' = trace w ++ flat_map (fun i => batch_events client (slice i)) idx1
                          ++ [EvUpsert client (upsert_request (slice i))]
    /\ remote w' = sk /\ heap w' = heap w.
Proof.
  revert w. induction idx1 as [|j idx1 IH]; intros w Hc He.
  - simpl in Hc. injection Hc as <-.
    destruct (upload_batch_fail i w e He) as (w' & Hrun & Htr & Hr & Hh & _).
    exists w'. simpl. rewrite (bind_Raise _ _ _ _ _ Hrun). done.
  - simpl in Hc.
    destruct (remote_execute client (upsert_request (slice j)) (remote w))
      as [e' | [s1 d]] eqn:E; [done |].
    destruct (upload_batch_ok j w s1 d E) as (w1 & Hrun & Htr & Hr & Hh & _).
    simpl. rewrite (bind_Return _ _ _ _ _ Hrun).
    rewrite <- Hr in Hc. destruct (IH w1 Hc He) as (w' & Hrun' & Htr' & Hr' & Hh').
    exists w'. rewrite Hrun', Htr', Htr, Hh', Hh.
    repeat split; try done. by rewrite <- !app_assoc.
Qed.

(** A store that never raises commits any list of batches. *)
Lemma commit_total bs s :
  (forall c r st, exists st' d, remote_execute c r st = inr (st', d)) ->
  exists s', commit remote_execute client bs s = inr s'.
Proof.
  intros Htot. revert s. induction bs as [|b bs IH]; intros s; simpl.
  - by exists s.
  - destruct (Htot client (upsert_request b) s) as (s1 & d & ->). apply IH.
Qed.

End Loop.

(** ** The writer *)

Section Writer.

Variable remote_execute : Client -> Request -> Store -> Exc + (Store * list PyRecord).

Local Abbreviation upload := (upload_dataframe_to_supabase remote_execute).
Local Abbreviation loop client records :=
  (for_each (py_range 0 (length records) batch_size)
            (upload_batch remote_execute client records (length records))).

Lemma batch_size_pos : 0 < batch_size.
Proof. unfold batch_size. lia. Qed.

Lemma records_of_length t : length (records_of t) = df_len t.
Proof.
  unfold records_of, Pandas.to_dict_records, Pandas.replace_na_nan, df_len. simpl.
  by rewrite !length_map.
Qed.

(** The indices of the loop and the batches they cut. *)
Lemma loop_slices (records : list PyRecord) :
  map (fun i => py_slice i (i + batch_size) records)
      (py_range 0 (length records) batch_size)
  = map (batch records) (seq 0 (ceil_div (length records) batch_size)).
Proof.
  rewrite py_range_seq by apply batch_size_pos. by rewrite map_map.
Qed.

(** The batches, end to end, are the records. *)
Lemma batches_concat (records : list PyRecord) :
  concat (map (batch records) (seq 0 (ceil_div (length records) batch_size))) = records.
Proof.
  unfold batch.
  rewrite (map_ext _ (fun k => take batch_size (drop (k * batch_size) records)))
    by (intros; apply py_slice_block).
  apply concat_blocks.
  destruct (Nat.le_gt_cases (length records)
              (ceil_div (length records) batch_size * batch_size)) as [H | H]; [done |].
  apply (lt_ceil_div _ _ _ batch_size_pos) in H. lia.
Qed.

Lemma loop_events client (records : list PyRecord) (idx : list nat) :
  flat_map (fun i => batch_events client (py_slice i (i + batch_size) records)) idx
  = flat_map (batch_events client)
             (map (fun i => py_slice i (i + batch_size) records) idx).
Proof. induction idx as [|i idx IH]; simpl; [done | by rewrite IH]. Qed.

(** The writer on a live, non-empty table: the announcement, the clean
    copy at a fresh reference, the loop, and the two ways out. *)
Lemma upload_nonempty df client w t :
  heap w !! df = Some t -> df_empty t = false ->
  upload df client w =
    match loop client (records_of t)
            (mkWorld (environ w)
                     (<[fresh (dom (heap w)) := Pandas.replace_na_nan t]> (heap w))
                     (remote w)
                     (stdout w ++ ["Preparing to upload data to Supabase in batches..."])
                     (trace w)) with
    | (Return _, w2) =>
        (Return tt,
         mkWorld (environ w2) (heap w2) (remote w2)
                 (stdout w2 ++ ["All batches uploaded successfully."]) (trace w2))
    | (Raise e, w2) =>
        if is_Exception e then
          (Return tt,
           mkWorld (environ w2) (heap w2) (remote w2)
                   (stdout w2 ++ ["An error occurred during the Supabase upload: "
                                  +:+ str_exc e]) (trace w2))
        else (Raise e, w2)
    end.
Proof.
  intros Hdf Hne.
  unfold upload_dataframe_to_supabase, try_except, alloc, deref, print, bind.
  rewrite Hdf, Hne. cbn [heap environ remote stdout trace].
  rewrite lookup_insert_eq. fold (records_of t).
  destruct (loop client (records_of t) _) as [[[] | e] w2]; done.
Qed.

Lemma upload_dangling df client w :
  heap w !! df = None -> snd (upload df client w) = w.
Proof.
  intros Hdf. unfold upload_dataframe_to_supabase, deref, bind. by rewrite Hdf.
Qed.

Lemma upload_empty df client w t :
  heap w !! df = Some t -> df_empty t = true ->
  upload df client w =
    (Return tt,
     mkWorld (environ w) (heap w) (remote w)
             (stdout w ++ ["DataFrame is empty. Nothing to upload."]) (trace w)).
Proof.
  intros Hdf He. unfold upload_dataframe_to_supabase, deref, bind, print.
  by rewrite Hdf, He.
Qed.

(** Every batch goes through. *)
Lemma upload_ok_spec df client w t s' :
  heap w !! df = Some t -> df_empty t = false ->
  commit remote_execute client
         (map (batch (records_of t)) (seq 0 (ceil_div (df_len t) batch_size)))
         (remote w) = inr s' ->
  exists w', upload df client w = (Return tt, w')
    /\ trace w' = trace w ++ flat_map (batch_events client)
                    (map (batch (records_of t)) (seq 0 (ceil_div (df_len t) batch_size)))
    /\ remote w' = s'
    /\ last (stdout w') = Some "All batches uploaded successfully.".
Proof.
  intros Hdf Hne Hc. rewrite (upload_nonempty _ _ _ _ Hdf Hne).
  rewrite <- records_of_length, <- loop_slices in Hc |- *.
  match goal with |- context [loop _ _ ?w1] =>
    destruct (upload_loop_ok remote_execute client (records_of t)
                (length (records_of t)) _ w1 s' Hc) as (w2 & -> & Htr & Hr & _)
  end.
  eexists. split; [reflexivity |]. cbn [trace remote stdout].
  rewrite Htr, loop_events. split; [done |]. split; [done |]. apply last_snoc.
Qed.

(** Batch [k] is the first the store refuses. *)
Lemma upload_fail_spec df client w t k sk e :
  heap w !! df = Some t -> df_empty t = false ->
  k * batch_size < df_len t ->
  commit remote_execute client (map (batch (records_of t)) (seq 0 k)) (remote w)
    = inr sk ->
  remote_execute client (upsert_request (batch (records_of t) k)) sk = inl e ->
  is_Exception e = true ->
  exists w', upload df client w = (Return tt, w')
    /\ trace w' = trace w
                  ++ flat_map (batch_events client) (map (batch (records_of t)) (seq 0 k))
                  ++ [EvUpsert client (upsert_request (batch (records_of t) k))]
    /\ remote w' = sk
    /\ exists out, stdout w' =
         out ++ ["An error occurred during the Supabase upload: " +:+ str_exc e].
Proof.
  intros Hdf Hne Hk Hc He Hexc. rewrite (upload_nonempty _ _ _ _ Hdf Hne).
  rewrite <- records_of_length in Hk.
  apply (lt_ceil_div _ _ _ batch_size_pos) in Hk.
  rewrite py_range_seq by apply batch_size_pos.
  replace (ceil_div (length (records_of t)) batch_size)
    with (k + S (ceil_div (length (records_of t)) batch_size - S k)) by lia.
  rewrite seq_app, map_app, Nat.add_0_l. cbn [seq]. rewrite map_cons.
  match goal with |- context [for_each _ _ ?w1] =>
    destruct (upload_loop_fail remote_execute client (records_of t)
                (length (records_of t))
                (map (fun j => j * batch_size) (seq 0 k)) (k * batch_size)
                (map (fun j => j * batch_size)
                     (seq (S k) (ceil_div (length (records_of t)) batch_size - S k)))
                w1 sk e) as (w2 & -> & Htr & Hr & _)
  end.
  - cbn [remote]. rewrite map_map. exact Hc.
  - exact He.
  - rewrite Hexc. eexists. split; [reflexivity |]. cbn [trace remote stdout].
    rewrite Htr, loop_events, map_map. cbn [trace]. eauto.
Qed.

(** The writer touches no object that was live when it was called. *)
Lemma upload_heap_frame df client w l :
  is_Some (heap w !! l) ->
  heap (snd (upload df client w)) !! l = heap w !! l.
Proof.
  intros Hl. destruct (heap w !! df) as [t |] eqn:Hdf.
  - destruct (df_empty t) eqn:He.
    + by rewrite (upload_empty _ _ _ _ Hdf He).
    + rewrite (upload_nonempty _ _ _ _ Hdf He).
      match goal with |- context [loop ?c ?r ?w1] =>
        destruct (upload_loop_frame remote_execute c r (length r)
                    (py_range 0 (length r) batch_size) w1)
          as (new & _ & _ & Hh & _);
        destruct (loop c r w1) as [[[] | e] w2]
      end; simpl in Hh.
      * cbn [snd heap]. rewrite Hh. apply lookup_insert_ne.
        intros <-. apply elem_of_dom in Hl. by apply is_fresh in Hl.
      * destruct (is_Exception e); cbn [snd heap]; rewrite Hh;
          apply lookup_insert_ne;
          intros <-; apply elem_of_dom in Hl; by apply is_fresh in Hl.
  - by rewrite upload_dangling.
Qed.

(** Whatever the store answers, the writer's requests carry slices of
    the records of the clean copy. *)
Lemma upload_trace_frame df client w t :
  heap w !! df = Some t ->
  exists new,
    trace (snd (upload df client w)) = trace w ++ new
    /\ Forall (fun ev => ev = EvSleep 1
                 \/ exists i, ev = EvUpsert client
                      (upsert_request (py_slice i (i + batch_size) (records_of t)))) new.
Proof.
  intros Hdf. destruct (df_empty t) eqn:He.
  - rewrite (upload_empty _ _ _ _ Hdf He). exists []. simpl.
    by rewrite app_nil_r.
  - rewrite (upload_nonempty _ _ _ _ Hdf He).
    match goal with |- context [loop ?c ?r ?w1] =>
      destruct (upload_loop_frame remote_execute c r (length r)
                  (py_range 0 (length r) batch_size) w1)
        as (new & Htr & Hall & _ & _);
      destruct (loop c r w1) as [[[] | e] w2]
    end; simpl in Htr; exists new.
    + by cbn [snd trace].
    + by destruct (is_Exception e); cbn [snd trace].
Qed.

End Writer.

(** ** Records and traces *)

Section Records.

Lemma upsert_calls_app tr1 tr2 :
  upsert_calls (tr1 ++ tr2) = upsert_calls tr1 ++ upsert_calls tr2.
Proof. apply omap_app. Qed.

Lemma upsert_calls_batches client (bs : list (list PyRecord)) :
  upsert_calls (flat_map (batch_events client) bs) = bs.
Proof.
  induction bs as [|b bs IH]; [done |].
  simpl. unfold upsert_calls in *. simpl. by rewrite IH.
Qed.

(** A value of the [dict] built from a row is a cell of that row. *)
Lemma fold_insert_values (ps : list (string * Cell)) (d : PyRecord) k v :
  fold_left (fun d kv => <[fst kv := snd kv]> d) ps d !! k = Some v ->
  d !! k = Some v \/ In v (map snd ps).
Proof.
  revert d. induction ps as [|p ps IH]; intros d H; simpl in *; [by left |].
  destruct (IH _ H) as [Hd | Hin]; [| by right; right].
  apply lookup_insert_Some in Hd as [[_ <-] | [_ Hd]]; [right; by left | by left].
Qed.

Lemma to_record_values cols r k v :
  Pandas.to_record cols r !! k = Some v -> In v r.
Proof.
  unfold Pandas.to_record. intros H.
  apply fold_insert_values in H as [H | H]; [by rewrite lookup_empty in H |].
  apply in_map_iff in H as ([c v'] & <- & Hin). by apply in_combine_r in Hin.
Qed.

Lemma replace_cell_clean v :
  Pandas.replace_cell v <> CNaN /\ Pandas.replace_cell v <> CNA.
Proof. by destruct v. Qed.

Lemma records_of_clean t : Forall record_clean (records_of t).
Proof.
  unfold records_of, Pandas.to_dict_records, Pandas.replace_na_nan. simpl.
  apply Forall_forall. intros rec Hin.
  apply list_elem_of_In, in_map_iff in Hin as (r' & <- & Hin).
  apply in_map_iff in Hin as (r & <- & _).
  intros k v Hkv. apply to_record_values, in_map_iff in Hkv as (v0 & <- & _).
  apply replace_cell_clean.
Qed.

Lemma slice_clean i j (rs : list PyRecord) :
  Forall record_clean rs -> Forall record_clean (py_slice i j rs).
Proof. intros H. unfold py_slice. by apply Forall_take, Forall_drop. Qed.

End Records.

(** ** Properties of the Sync Writer *)

(** C1.  For a non-empty table of R rows whose upserts all go through,
    the writer issues exactly ceil(R / 500) upsert calls; the [k]-th
    carries the records from position 500 k on, 500 of them for every
    call but possibly the last; the calls come in ascending order and
    put end to end they are the record sequence. *)
Theorem upload_issues_ceil_batches
        (remote_execute : Client -> Request -> Store -> Exc + (Store * list PyRecord))
        (df : positive) (client : Client) (w : World) (t : DataFrame) :
  heap w !! df = Some t ->
  df_empty t = false ->
  (forall c r s, exists s' d, remote_execute c r s = inr (s', d)) ->
  exists calls w',
    upload_dataframe_to_supabase remote_execute df client w = (Return tt, w')
    /\ trace w' = trace w ++ flat_map (batch_events client) calls
    /\ upsert_calls (trace w') = upsert_calls (trace w) ++ calls
    /\ batch_size = 500
    /\ length calls = ceil_div (df_len t) batch_size
    /\ (forall k, k < length calls ->
          calls !! k = Some (take batch_size (drop (k * batch_size) (records_of t))))
    /\ (forall k b, S k < length calls -> calls !! k = Some b -> length b = batch_size)
    /\ concat calls = records_of t.
Proof.
  intros Hdf Hne Htot.
  set (n := ceil_div (df_len t) batch_size).
  set (calls := map (batch (records_of t)) (seq 0 n)).
  destruct (commit_total remote_execute client calls (remote w) Htot) as [s' Hc].
  destruct (upload_ok_spec remote_execute df client w t s' Hdf Hne Hc)
    as (w' & Hrun & Htr & _ & _).
  assert (Hlen : length calls = n) by (unfold calls; by rewrite length_map, length_seq).
  assert (Hlook : forall k, k < n ->
            calls !! k = Some (take batch_size (drop (k * batch_size) (records_of t)))).
  { intros k Hk. unfold calls. rewrite list_lookup_fmap, lookup_seq_lt by done.
    simpl. unfold batch. by rewrite py_slice_block. }
  exists calls, w'. split; [done |]. split; [done |].
  split; [by rewrite Htr, upsert_calls_app, upsert_calls_batches |].
  split; [done |]. split; [done |]. rewrite Hlen.
  split; [done |]. split.
  - intros k b Hk Hb. rewrite Hlook in Hb by lia. injection Hb as <-.
    apply block_length. apply (lt_ceil_div _ _ _ batch_size_pos) in Hk.
    rewrite records_of_length. lia.
  - unfold calls, n. rewrite <- records_of_length. apply batches_concat.
Qed.

Lemma upload_issues_ceil_batches_witness :
  exists calls w',
    upload_dataframe_to_supabase Demo.accepting 1%positive Demo.client
                                 (Demo.world_with 1200) = (Return tt, w')
    /\ upsert_calls (trace w') = calls
    /\ length calls = 3
    /\ concat calls = records_of (Demo.table 1200).
Proof.
  destruct (upload_issues_ceil_batches Demo.accepting 1%positive Demo.client
              (Demo.world_with 1200) (Demo.table 1200))
    as (calls & w' & Hrun & _ & Hcalls & _ & Hlen & _ & _ & Hcat).
  - reflexivity.
  - reflexivity.
  - intros c r s. exists (s ++ req_rows r), (req_rows r). reflexivity.
  - exists calls, w'. split; [exact Hrun |]. split; [exact Hcalls |].
    split; [exact Hlen | exact Hcat].
Defined.

(** C2.  When the upsert of batch [k] raises, the writer has sent the
    batches up to [k] once each and sends nothing after; it prints the
    error and returns; the destination stays as the batches before [k]
    left it. *)
Theorem upload_aborts_at_failed_batch
        (remote_execute : Client -> Request -> Store -> Exc + (Store * list PyRecord))
        (df : positive) (client : Client) (w : World) (t : DataFrame)
        (k : nat) (sk : Store) (e : Exc) :
  heap w !! df = Some t ->
  df_empty t = false ->
  k * batch_size < df_len t ->
  commit remote_execute client (map (batch (records_of t)) (seq 0 k)) (remote w) = inr sk ->
  remote_execute client (upsert_request (batch (records_of t) k)) sk = inl e ->
  is_Exception e = true ->
  exists w',
    upload_dataframe_to_supabase remote_execute df client w = (Return tt, w')
    /\ trace w' = trace w
                  ++ flat_map (batch_events client) (map (batch (records_of t)) (seq 0 k))
                  ++ [EvUpsert client (upsert_request (batch (records_of t) k))]
    /\ upsert_calls (trace w')
       = upsert_calls (trace w) ++ map (batch (records_of t)) (seq 0 (S k))
    /\ remote w' = sk
    /\ last (stdout w')
       = Some ("An error occurred during the Supabase upload: " +:+ str_exc e).
Proof.
  intros Hdf Hne Hk Hc He Hexc.
  destruct (upload_fail_spec remote_execute df client w t k sk e Hdf Hne Hk Hc He Hexc)
    as (w' & Hrun & Htr & Hr & out & Hout).
  exists w'. split; [done |]. split; [done |]. split; [| split; [done |]].
  - rewrite Htr, !upsert_calls_app, upsert_calls_batches.
    rewrite seq_S, map_app. simpl. done.
  - rewrite Hout. apply last_snoc.
Qed.

Lemma upload_aborts_at_failed_batch_witness :
  exists w',
    upload_dataframe_to_supabase Demo.refusing_600 1%positive Demo.client
                                 (Demo.world_with 1200) = (Return tt, w')
    /\ map length (upsert_calls (trace w')) = [500; 500]
    /\ length (remote w') = 500.
Proof.
  assert (H0 : existsb (fun r : PyRecord => bool_decide (r !! "DSLD ID" = Some (CInt 600)))
                 (batch (records_of (Demo.table 1200)) 0) = false)
    by (vm_compute; reflexivity).
  assert (H1 : existsb (fun r : PyRecord => bool_decide (r !! "DSLD ID" = Some (CInt 600)))
                 (batch (records_of (Demo.table 1200)) 1) = true)
    by (vm_compute; reflexivity).
  destruct (upload_aborts_at_failed_batch Demo.refusing_600 1%positive Demo.client
              (Demo.world_with 1200) (Demo.table 1200) 1
              (batch (records_of (Demo.table 1200)) 0)
              (PyException "APIError" "statement timeout"))
    as (w' & Hrun & _ & Hcalls & Hr & _).
  - reflexivity.
  - reflexivity.
  - vm_compute. lia.
  - cbn [seq map commit]. unfold Demo.refusing_600. cbn [req_rows upsert_request].
    rewrite H0. reflexivity.
  - unfold Demo.refusing_600. cbn [req_rows upsert_request]. rewrite H1. reflexivity.
  - reflexivity.
  - exists w'. split; [exact Hrun |]. rewrite Hcalls, Hr. vm_compute.
    split; reflexivity.
Defined.

(** C10.  The writer leaves its argument as it was: the table at [df],
    and every object live at the call, holds the same cells afterwards,
    whether the upload went through, the table was empty, or an upsert
    raised; the normalised table is a new object at another reference. *)
Theorem upload_keeps_argument
        (remote_execute : Client -> Request -> Store -> Exc + (Store * list PyRecord))
        (df : positive) (client : Client) (w : World) :
  heap (snd (upload_dataframe_to_supabase remote_execute df client w)) !! df
  = heap w !! df
  /\ (forall l, is_Some (heap w !! l) ->
        heap (snd (upload_dataframe_to_supabase remote_execute df client w)) !! l
        = heap w !! l)
  /\ (forall t, heap w !! df = Some t -> df_empty t = false ->
        exists l, l <> df /\ heap w !! l = None
          /\ heap (snd (upload_dataframe_to_supabase remote_execute df client w)) !! l
             = Some (Pandas.replace_na_nan t)).
Proof.
  split; [| split].
  - destruct (heap w !! df) as [t |] eqn:Hdf.
    + rewrite <- Hdf. apply upload_heap_frame. by rewrite Hdf.
    + by rewrite upload_dangling.
  - apply upload_heap_frame.
  - intros t Hdf Hne. exists (fresh (dom (heap w))).
    assert (Hfresh : heap w !! fresh (dom (heap w)) = None).
    { apply not_elem_of_dom, is_fresh. }
    split; [intros E; rewrite E in Hfresh; congruence |]. split; [done |].
    rewrite (upload_nonempty _ _ _ _ _ Hdf Hne).
    match goal with |- context [for_each ?idx (upload_batch _ ?c ?r ?n) ?w1] =>
      destruct (upload_loop_frame remote_execute c r n idx w1) as (new & _ & _ & Hh & _);
      destruct (for_each idx (upload_batch remote_execute c r n) w1) as [[[] | e] w2]
    end; simpl in Hh.
    + cbn [snd heap]. rewrite Hh. apply lookup_insert_eq.
    + destruct (is_Exception e); cbn [snd heap]; rewrite Hh; apply lookup_insert_eq.
Qed.

Lemma upload_keeps_argument_witness :
  heap (snd (upload_dataframe_to_supabase Demo.refusing 1%positive Demo.client
               (Demo.world_with 3))) !! 1%positive
  = Some (Demo.table 3)
  /\ exists l, l <> 1%positive
       /\ heap (snd (upload_dataframe_to_supabase Demo.refusing 1%positive Demo.client
                       (Demo.world_with 3))) !! l
          = Some (Pandas.replace_na_nan (Demo.table 3)).
Proof.
  destruct (upload_keeps_argument Demo.refusing 1%positive Demo.client (Demo.world_with 3))
    as (Hsame & _ & Hcopy).
  split.
  - rewrite Hsame. reflexivity.
  - destruct (Hcopy (Demo.table 3)) as (l & Hl & _ & Hnew); [reflexivity | reflexivity |].
    exists l. split; [exact Hl | exact Hnew].
Defined.

(** ** The archive *)

Section Archive.

Implicit Types (zf : list Member) (m : Member).

Lemma zip_getinfo_Some zf name m' :
  zip_getinfo zf name = Some m' -> In m' zf /\ filename m' = name.
Proof.
  unfold zip_getinfo. intros H. apply last_Some in H as [l' H].
  assert (Hin : In m' (List.filter (fun m => String.eqb (filename m) name) zf)).
  { rewrite H. apply in_or_app. right. by left. }
  apply filter_In in Hin as [Hin Heq]. split; [done |].
  by apply String.eqb_eq in Heq.
Qed.

Lemma zip_getinfo_member zf m :
  In m zf -> is_Some (zip_getinfo zf (filename m)).
Proof.
  intros Hin. unfold zip_getinfo.
  assert (Hf : In m (List.filter (fun x => String.eqb (filename x) (filename m)) zf)).
  { apply filter_In. split; [done |]. apply String.eqb_refl. }
  destruct (List.filter _ zf) as [|x l] eqn:E; [done |].
  destruct (last (x :: l)) eqn:El; [eauto |].
  by apply last_None in El.
Qed.

Lemma opened_name zf m : h_name (opened zf m) = filename m.
Proof.
  unfold opened. destruct (zip_getinfo zf (filename m)) as [m' |] eqn:E; [| done].
  by apply zip_getinfo_Some in E as [_ E].
Qed.

Lemma filter_none {A} (f : A -> bool) (l : list A) :
  (forall y, In y l -> f y = false) -> List.filter f l = [].
Proof.
  induction l as [|y l IH]; intros H; [done |]. simpl.
  rewrite (H y) by (by left). apply IH. intros z Hz. apply H. by right.
Qed.

(** Where no selected name is listed twice, a selected member is the
    only entry under its name. *)
Lemma only_entry zf m :
  NoDup (map filename (List.filter selected zf)) ->
  In m zf -> selected m = true ->
  List.filter (fun x => String.eqb (filename x) (filename m)) zf = [m].
Proof.
  intros Hnd Hin Hsel.
  assert (Hsame : forall x, filename x = filename m -> selected x = true).
  { intros x Hx. unfold selected in *. by rewrite Hx. }
  induction zf as [|x zf IH]; [done |]. simpl in Hnd |- *.
  destruct (selected x) eqn:Hx.
  - simpl in Hnd. apply NoDup_cons in Hnd as [Hnotin Hnd].
    assert (Hrest : forall y, In y zf -> filename y = filename x -> False).
    { intros y Hy Hyx. apply Hnotin. apply list_elem_of_In, in_map_iff.
      exists y. split; [done |]. apply filter_In. split; [done |].
      unfold selected in *. by rewrite Hyx. }
    destruct Hin as [-> | Hin].
    + rewrite String.eqb_refl. f_equal. apply filter_none.
      intros y Hy. destruct (String.eqb_spec (filename y) (filename m)) as [E | _];
        [| done].
      destruct (Hrest y Hy E).
    + destruct (String.eqb_spec (filename x) (filename m)) as [E | _].
      * exfalso. apply (Hrest m); [done | done].
      * by apply IH.
  - destruct Hin as [-> | Hin]; [congruence |].
    destruct (String.eqb_spec (filename x) (filename m)) as [E | _].
    + rewrite (Hsame x E) in Hx. done.
    + by apply IH.
Qed.

Lemma opened_only zf m :
  NoDup (map filename (List.filter selected zf)) ->
  In m zf -> selected m = true -> opened zf m = handle_of m.
Proof.
  intros Hnd Hin Hsel. unfold opened, zip_getinfo.
  by rewrite (only_entry zf m Hnd Hin Hsel).
Qed.

Lemma selected_split zf :
  length (List.filter selected zf)
  + length (List.filter (fun m => negb (selected m)) zf) = length zf.
Proof.
  induction zf as [|x zf IH]; [done |]. simpl.
  destruct (selected x); simpl; lia.
Qed.

End Archive.

(** ** The fetcher *)

Section Fetcher.

Variable http_get : string -> string + Response.
Variable zip_parse : bytes -> Exc + list Member.

Local Abbreviation download := (download_and_unzip_data http_get zip_parse).

Lemma bad_status_true (z : Z) :
  (400 <= z < 600)%Z -> ((400 <=? z) && (z <? 600))%Z = true.
Proof.
  intros H. apply andb_true_iff. split; [apply Z.leb_le | apply Z.ltb_lt]; lia.
Qed.

Lemma bad_status_false (z : Z) :
  ~ (400 <= z < 600)%Z -> ((400 <=? z) && (z <? 600))%Z = false.
Proof.
  intros H. apply andb_false_iff.
  destruct (Z.leb_spec 400 z); [| by left]. right. apply Z.ltb_ge. lia.
Qed.

(** One passage of the selection loop touches nothing but the console. *)
Lemma select_member_frame zf acc x w :
  trace (snd (select_member zf acc x w)) = trace w
  /\ heap (snd (select_member zf acc x w)) = heap w
  /\ remote (snd (select_member zf acc x w)) = remote w
  /\ environ (snd (select_member zf acc x w)) = environ w.
Proof.
  unfold select_member, zip_open, print, raise, ret, bind.
  destruct (matches (filename x)); [| done].
  destruct (zip_getinfo zf (filename x)) as [m' |]; [| done].
  by destruct (unreadable m').
Qed.

Lemma select_loop_frame zf lst acc w :
  trace (snd (for_fold lst (select_member zf) acc w)) = trace w
  /\ heap (snd (for_fold lst (select_member zf) acc w)) = heap w
  /\ remote (snd (for_fold lst (select_member zf) acc w)) = remote w
  /\ environ (snd (for_fold lst (select_member zf) acc w)) = environ w.
Proof.
  revert acc w. induction lst as [|x lst IH]; intros acc w; [done |].
  simpl for_fold. unfold bind.
  pose proof (select_member_frame zf acc x w) as (Ht & Hh & Hr & He).
  destruct (select_member zf acc x w) as [[acc' | e] w1]; simpl in *.
  - destruct (IH acc' w1) as (Ht' & Hh' & Hr' & He'). by rewrite Ht', Hh', Hr', He'.
  - done.
Qed.

(** Where every selected member can be opened, the loop opens one
    handle per selected member, in listing order. *)
Lemma select_loop zf lst acc w :
  (forall m, In m lst -> In m zf) ->
  Forall (openable zf) (List.filter selected lst) ->
  exists w',
    for_fold lst (select_member zf) acc w
    = (Return (acc ++ map (opened zf) (List.filter selected lst)), w')
    /\ trace w' = trace w /\ heap w' = heap w
    /\ remote w' = remote w /\ environ w' = environ w.
Proof.
  revert acc w. induction lst as [|x lst IH]; intros acc w Hsub Hopen.
  - exists w. simpl. by rewrite app_nil_r.
  - simpl for_fold. simpl List.filter in *. unfold select_member at 1.
    unfold selected at 1 in Hopen. unfold selected at 1.
    destruct (matches (filename x)) eqn:Hx.
    + apply Forall_cons in Hopen as [Hox Hopen].
      destruct (zip_getinfo_member zf x (Hsub x (or_introl eq_refl))) as [m' Hm'].
      unfold zip_open, print, bind, ret. rewrite Hm', (Hox m' Hm').
      match goal with |- context [for_fold lst _ ?a ?w1] =>
        destruct (IH a w1) as (w' & Hrun & Htr & Hh & Hr & He)
      end; [intros m Hm; apply Hsub; by right | done |].
      exists w'. rewrite Hrun. simpl map. unfold opened at 2. rewrite Hm'.
      by rewrite <- app_assoc.
    + unfold bind, ret.
      destruct (IH acc w) as (w' & Hrun & Hrest);
        [intros m Hm; apply Hsub; by right | done |].
      exists w'. by rewrite Hrun.
Qed.

(** The loop ends with the handles, or with what [open()] raised on a
    selected entry. *)
Lemma select_loop_result zf lst acc w :
  (forall m, In m lst -> In m zf) ->
  match fst (for_fold lst (select_member zf) acc w) with
  | Return hs => hs = acc ++ map (opened zf) (List.filter selected lst)
  | Raise e => exists m, In m zf /\ selected m = true /\ unreadable m = Some e
  end.
Proof.
  revert acc w. induction lst as [|x lst IH]; intros acc w Hsub.
  - simpl. by rewrite app_nil_r.
  - simpl for_fold. simpl List.filter. unfold select_member at 1. unfold selected at 1.
    destruct (matches (filename x)) eqn:Hx.
    + destruct (zip_getinfo_member zf x (Hsub x (or_introl eq_refl))) as [m' Hm'].
      unfold zip_open, print, bind, ret, raise. rewrite Hm'.
      destruct (unreadable m') as [e |] eqn:Hun.
      * simpl. exists m'. apply zip_getinfo_Some in Hm' as [Hin Hname].
        split; [done |]. split; [| done]. unfold selected. by rewrite Hname.
      * match goal with |- context [for_fold lst _ ?a ?w1] =>
          specialize (IH a w1 (fun m Hm => Hsub m (or_intror Hm)));
          destruct (for_fold lst (select_member zf) a w1) as [[hs | e] w']
        end; simpl in *; [| done].
        rewrite IH. simpl map. unfold opened at 2. rewrite Hm'.
        by rewrite <- app_assoc.
    + unfold bind, ret.
      specialize (IH acc w (fun m Hm => Hsub m (or_intror Hm))).
      by destruct (for_fold lst (select_member zf) acc w) as [[hs | e] w'].
Qed.

(** The fetcher as its [try] body followed by the two handlers. *)
Lemma download_unfold url w :
  download url w
  = match download_try http_get zip_parse url
            (mkWorld (environ w) (heap w) (remote w)
                     (stdout w ++ ["Downloading data from " +:+ url +:+ "..."])
                     (trace w)) with
    | (Return hs, w1) => (Return hs, w1)
    | (Raise (RequestException msg), w1) =>
        (Return [],
         mkWorld (environ w1) (heap w1) (remote w1)
                 (stdout w1 ++ ["Error downloading the file: " +:+ msg]) (trace w1))
    | (Raise (BadZipFile msg), w1) =>
        (Return [],
         mkWorld (environ w1) (heap w1) (remote w1)
                 (stdout w1 ++ ["Error: The downloaded file is not a valid zip file."])
                 (trace w1))
    | (Raise e, w1) => (Raise e, w1)
    end.
Proof.
  unfold download_and_unzip_data, print. unfold bind at 1. unfold try_except.
  destruct (download_try http_get zip_parse url _) as [[hs | e] w1]; [done |].
  by destruct e.
Qed.

(** In every outcome the [try] body makes the one GET and touches
    nothing else but the console. *)
Lemma download_try_frame url w :
  trace (snd (download_try http_get zip_parse url w)) = trace w ++ [EvHttpGet url]
  /\ heap (snd (download_try http_get zip_parse url w)) = heap w
  /\ remote (snd (download_try http_get zip_parse url w)) = remote w
  /\ environ (snd (download_try http_get zip_parse url w)) = environ w.
Proof.
  unfold download_try, requests_get, raise_for_status, ZipFile, print, emit, raise,
    ret, bind.
  destruct (http_get url) as [msg | r]; [by simpl |].
  cbn [environ heap remote stdout trace].
  destruct ((400 <=? status_code r) && (status_code r <? 600))%Z; [by simpl |].
  destruct (zip_parse (content r)) as [e | zf]; [by simpl |].
  match goal with |- context [for_fold zf _ [] ?w1] =>
    pose proof (select_loop_frame zf zf [] w1) as (Ht & Hh & Hr & He);
    destruct (for_fold zf (select_member zf) [] w1) as [[hs | e] w']
  end; simpl in *; [| done].
  destruct hs; simpl; by rewrite ?Ht, ?Hh, ?Hr, ?He.
Qed.

(** What the [try] body ends with. *)
Lemma download_try_result url w :
  match fst (download_try http_get zip_parse url w) with
  | Return hs =>
      exists r zf, http_get url = inr r /\ ~ (400 <= status_code r < 600)%Z
        /\ zip_parse (content r) = inr zf
        /\ hs = map (opened zf) (List.filter selected zf)
  | Raise e =>
      (exists msg, http_get url = inl msg /\ e = RequestException msg)
      \/ (exists r, http_get url = inr r /\ (400 <= status_code r < 600)%Z
            /\ e = RequestException (http_error_msg r))
      \/ (exists r, http_get url = inr r /\ ~ (400 <= status_code r < 600)%Z
            /\ (zip_parse (content r) = inl e
                \/ exists zf m, zip_parse (content r) = inr zf /\ In m zf
                     /\ selected m = true /\ unreadable m = Some e))
  end.
Proof.
  unfold download_try, requests_get, raise_for_status, ZipFile.
  destruct (http_get url) as [msg | r] eqn:Hget.
  { simpl. left. by exists msg. }
  unfold bind at 1. unfold bind at 1. unfold emit, ret.
  destruct (decide (400 <= status_code r < 600)%Z) as [Hbad | Hok].
  { rewrite (bad_status_true _ Hbad). simpl. right. left. by exists r. }
  rewrite (bad_status_false _ Hok).
  unfold bind at 1. unfold ret, bind at 1.
  destruct (zip_parse (content r)) as [e | zf] eqn:Hzip.
  { simpl. right. right. exists r. split; [done |]. split; [done |]. by left. }
  unfold ret, bind.
  match goal with |- context [for_fold zf _ [] ?w1] =>
    pose proof (select_loop_result zf zf [] w1 (fun m H => H)) as Hres;
    destruct (for_fold zf (select_member zf) [] w1) as [[hs | e] w']
  end; simpl in Hres.
  - subst hs. simpl app.
    destruct (map (opened zf) (List.filter selected zf)) eqn:E; simpl;
      exists r, zf; by rewrite ?E.
  - simpl. right. right. exists r. split; [done |]. split; [done |]. right.
    destruct Hres as (m & Hin & Hsel & Hun). by exists zf, m.
Qed.

Lemma download_try_ok url w r zf :
  http_get url = inr r -> ~ (400 <= status_code r < 600)%Z ->
  zip_parse (content r) = inr zf ->
  Forall (openable zf) (List.filter selected zf) ->
  exists w',
    download_try http_get zip_parse url w
    = (Return (map (opened zf) (List.filter selected zf)), w')
    /\ trace w' = trace w ++ [EvHttpGet url] /\ heap w' = heap w
    /\ remote w' = remote w /\ environ w' = environ w.
Proof.
  intros Hget Hst Hzip Hopen.
  unfold download_try, requests_get, raise_for_status, ZipFile.
  rewrite Hget. unfold bind at 1. unfold bind at 1. unfold emit, ret.
  rewrite (bad_status_false _ Hst). unfold bind at 1. unfold ret, bind at 1.
  rewrite Hzip. unfold ret, bind.
  match goal with |- context [for_fold zf _ [] ?w1] =>
    destruct (select_loop zf zf [] w1) as (w' & Hrun & Htr & Hh & Hr & He);
      [done | done |]
  end.
  rewrite Hrun. simpl app.
  destruct (map (opened zf) (List.filter selected zf)) as [|h hs];
    unfold print; eexists; (split; [reflexivity |]); simpl;
    rewrite ?Htr, ?Hh, ?Hr, ?He; done.
Qed.

Lemma download_ok url w r zf :
  http_get url = inr r -> ~ (400 <= status_code r < 600)%Z ->
  zip_parse (content r) = inr zf ->
  Forall (openable zf) (List.filter selected zf) ->
  exists w',
    download url w = (Return (map (opened zf) (List.filter selected zf)), w')
    /\ trace w' = trace w ++ [EvHttpGet url] /\ heap w' = heap w
    /\ remote w' = remote w /\ environ w' = environ w.
Proof.
  intros Hget Hst Hzip Hopen. rewrite download_unfold.
  match goal with |- context [download_try _ _ _ ?w1] =>
    destruct (download_try_ok url w1 r zf Hget Hst Hzip Hopen)
      as (w' & Hrun & Htr & Hh & Hr & He)
  end.
  exists w'. by rewrite Hrun.
Qed.


End Fetcher.

(** ** Properties of the Archive Fetcher *)

(** Where every matching member can be opened the fetcher returns one
    handle per matching member, in listing order, each opened under the
    member's name; where besides no matching name is listed twice, the
    handles are those of the members themselves. *)
Lemma fetch_opens_each_match_by_name
      (http_get : string -> string + Response)
      (zip_parse : bytes -> Exc + list Member)
      (url : string) (w : World) (r : Response) (zf : list Member) :
  http_get url = inr r ->
  ~ (400 <= status_code r < 600)%Z ->
  zip_parse (content r) = inr zf ->
  Forall (openable zf) (List.filter selected zf) ->
  exists handles w',
    download_and_unzip_data http_get zip_parse url w = (Return handles, w')
    /\ length handles = length (List.filter selected zf)
    /\ handles = map (opened zf) (List.filter selected zf)
    /\ map h_name handles = map filename (List.filter selected zf)
    /\ (NoDup (map filename (List.filter selected zf)) ->
        handles = map handle_of (List.filter selected zf)).
Proof.
  intros Hget Hst Hzip Hopen.
  destruct (download_ok http_get zip_parse url w r zf Hget Hst Hzip Hopen)
    as (w' & Hrun & _).
  exists (map (opened zf) (List.filter selected zf)), w'.
  split; [done |]. split; [by rewrite length_map |]. split; [done |]. split.
  - rewrite map_map. apply map_ext. intros m. apply opened_name.
  - intros Hnd. apply map_ext_in. intros m Hm.
    apply filter_In in Hm as [Hin Hsel]. by apply opened_only.
Qed.

(** C5.  The code at an archive that lists two members under one
    matching name, both readable: the claim asks for one handle onto
    each of the two, in listing order; the fetcher, which opens by name,
    returns two handles onto the second. *)
Theorem fetch_of_twins_reads_the_second_twice :
  Forall (openable Demo.twins) (List.filter selected Demo.twins)
  /\ map handle_of (List.filter selected Demo.twins)
     = [ mkHandle "ProductOverview_1.csv" [Byte.x01];
         mkHandle "ProductOverview_1.csv" [Byte.x02] ]
  /\ fst (download_and_unzip_data Demo.http_ok Demo.unzip_twins DOWNLOAD_URL
            Demo.empty_world)
     = Return [ mkHandle "ProductOverview_1.csv" [Byte.x02];
                mkHandle "ProductOverview_1.csv" [Byte.x02] ]
  /\ fst (download_and_unzip_data Demo.http_ok Demo.unzip_twins DOWNLOAD_URL
            Demo.empty_world)
     <> Return (map handle_of (List.filter selected Demo.twins)).
Proof.
  split; [| split; [reflexivity | split; [reflexivity |]]].
  - vm_compute. repeat constructor; intros m' Hm'; vm_compute in Hm';
      by injection Hm' as <-.
  - vm_compute. discriminate.
Qed.

(** ** Properties of the Orchestrator *)

Section Orchestrator.

Variable http_get : string -> string + Response.
Variable zip_parse : bytes -> Exc + list Member.
Variable read_csv : bytes -> Exc + DataFrame.
Variable promote : list DataFrame -> string -> Cell -> Cell.
Variable new_client : string -> string -> Exc + Client.
Variable remote_execute : Client -> Request -> Store -> Exc + (Store * list PyRecord).

Local Abbreviation main_ :=
  (main http_get zip_parse read_csv promote new_client remote_execute).


(** Past the fetch, the build and the client, [main] is the writer
    followed by the closing line. *)
Lemma main_reaches_writer url key w h hs w1 df w2 client w3 :
  download_and_unzip_data http_get zip_parse DOWNLOAD_URL w = (Return (h :: hs), w1) ->
  combine_csvs_to_dataframe read_csv promote (h :: hs) w1 = (Return df, w2) ->
  create_client new_client url key w2 = (Return client, w3) ->
  main_ url key w
  = bind (upload_dataframe_to_supabase remote_execute df client)
         (fun _ => print "Script finished.") w3.
Proof.
  intros Hd Hc Hn. unfold main. rewrite (bind_Return _ _ _ _ _ Hd).
  rewrite (bind_Return _ _ _ _ _ Hc). by rewrite (bind_Return _ _ _ _ _ Hn).
Qed.

End Orchestrator.




(** ** The builder *)

Section Builder.

Variable read_csv : bytes -> Exc + DataFrame.
Variable promote : list DataFrame -> string -> Cell -> Cell.

Lemma mapping_get_identity c : Pandas.mapping_get column_mapping c = c.
Proof.
  unfold column_mapping. simpl.
  repeat match goal with
         | |- context [String.eqb c ?k] =>
             destruct (String.eqb_spec c k) as [-> | _]; [reflexivity |]
         end.
  reflexivity.
Qed.

Lemma rename_identity t : Pandas.rename column_mapping t = t.
Proof.
  destruct t as [cols rs]. unfold Pandas.rename. simpl. f_equal.
  rewrite (map_ext _ id) by apply mapping_get_identity. apply map_id.
Qed.

Lemma existsb_eqb_In c (acc : list string) :
  existsb (String.eqb c) acc = true <-> In c acc.
Proof.
  rewrite existsb_exists. split.
  - intros (x & Hin & Heq). apply String.eqb_eq in Heq. by subst.
  - intros Hin. exists c. split; [done | apply String.eqb_refl].
Qed.

Lemma add_columns_new acc cols :
  NoDup (acc ++ cols) -> Pandas.add_columns acc cols = acc ++ cols.
Proof.
  revert acc. induction cols as [|c cols IH]; intros acc Hnd.
  - by rewrite app_nil_r.
  - unfold Pandas.add_columns in *. simpl.
    destruct (existsb (String.eqb c) acc) eqn:E.
    + apply existsb_eqb_In in E. apply NoDup_app in Hnd as (_ & Hdisj & _).
      destruct (Hdisj c); [by apply list_elem_of_In | by left].
    + rewrite IH; rewrite <- app_assoc; done.
Qed.

Lemma add_columns_known acc cols :
  (forall c, In c cols -> In c acc) -> Pandas.add_columns acc cols = acc.
Proof.
  induction cols as [|c cols IH]; intros Hsub; [done |].
  unfold Pandas.add_columns in *. simpl.
  rewrite (proj2 (existsb_eqb_In c acc)) by (apply Hsub; by left).
  apply IH. intros c' Hc'. apply Hsub. by right.
Qed.

Lemma union_columns_same cols t ts :
  NoDup cols -> Forall (fun t => columns t = cols) (t :: ts) ->
  Pandas.union_columns (t :: ts) = cols.
Proof.
  intros Hnd Hall. apply Forall_cons in Hall as [Ht Hts].
  unfold Pandas.union_columns. simpl. rewrite Ht, (add_columns_new [] cols Hnd).
  simpl. induction Hts as [|t' ts Ht' _ IH]; [done |].
  simpl. rewrite Ht', add_columns_known; done.
Qed.

Lemma reindex_same cols r :
  NoDup cols -> length r = length cols -> Pandas.reindex cols cols r = r.
Proof.
  revert r. induction cols as [|c cols IH]; intros [|v r] Hnd Hlen; try done.
  apply NoDup_cons in Hnd as [Hc Hnd]. unfold Pandas.reindex in *. simpl.
  rewrite String.eqb_refl. f_equal.
  etrans; [| apply (IH r Hnd); simpl in Hlen; lia].
  apply map_ext_in. intros c' Hc'.
  destruct (String.eqb_spec c' c) as [-> | _]; [| done].
  by apply list_elem_of_In in Hc'.
Qed.

Lemma concat_same cols t ts :
  NoDup cols -> Forall (fun t => columns t = cols /\ df_wf t) (t :: ts) ->
  Pandas.concat promote (t :: ts)
  = mkDF cols (map (Pandas.cast (promote (t :: ts)) cols) (concat (map rows (t :: ts)))).
Proof.
  intros Hnd Hall. unfold Pandas.concat.
  rewrite (union_columns_same cols) by
    (done || (eapply Forall_impl; [exact Hall | by intros ? [? _]])).
  f_equal. generalize (promote (t :: ts)). intros f.
  induction Hall as [|t' ts' [Hc Hwf] _ IH]; [done |].
  simpl. rewrite IH, map_app. f_equal. rewrite Hc.
  apply map_ext_in. intros r Hr. f_equal.
  apply reindex_same; [done |]. unfold df_wf in Hwf. rewrite Forall_forall in Hwf.
  rewrite <- Hc. apply Hwf. by apply list_elem_of_In.
Qed.

Lemma concat_len ts : df_len (Pandas.concat promote ts) = list_sum (map df_len ts).
Proof.
  unfold Pandas.concat, df_len. simpl. generalize (Pandas.union_columns ts).
  generalize (promote ts). intros f cols. induction ts as [|t ts IH]; [done |].
  simpl. by rewrite length_app, length_map, IH.
Qed.

Lemma read_all hs ts w :
  Forall2 (fun h t => read_csv (h_data h) = inr t) hs ts ->
  exists w',
    list_comp hs (pd_read_csv read_csv) w = (Return ts, w')
    /\ trace w' = trace w ++ map (fun h => EvReadCsv (h_name h)) hs
    /\ heap w' = heap w /\ remote w' = remote w /\ stdout w' = stdout w.
Proof.
  intros Hall. revert w. induction Hall as [|h t hs ts Ht _ IH]; intros w.
  - exists w. simpl. by rewrite app_nil_r.
  - simpl list_comp. unfold pd_read_csv at 1. rewrite Ht.
    unfold emit, bind at 1 2. unfold ret at 1.
    destruct (IH (mkWorld (environ w) (heap w) (remote w) (stdout w)
                          (trace w ++ [EvReadCsv (h_name h)])))
      as (w' & Hrun & Htr & Hh & Hr & Ho).
    exists w'. rewrite (bind_Return _ _ _ _ _ Hrun). unfold ret.
    rewrite Htr, Hh, Hr, Ho. simpl. by rewrite <- app_assoc.
Qed.

(** On a non-empty list of files that parse, the builder allocates the
    concatenation. *)
Lemma combine_spec h hs ts w :
  Forall2 (fun h t => read_csv (h_data h) = inr t) (h :: hs) ts ->
  exists w',
    combine_csvs_to_dataframe read_csv promote (h :: hs) w
    = (Return (fresh (dom (heap w))), w')
    /\ heap w' = <[fresh (dom (heap w)) := Pandas.concat promote ts]> (heap w)
    /\ trace w' = trace w ++ map (fun h => EvReadCsv (h_name h)) (h :: hs)
    /\ remote w' = remote w.
Proof.
  intros Hall. unfold combine_csvs_to_dataframe, print. unfold bind at 1.
  destruct (read_all (h :: hs) ts
              (mkWorld (environ w) (heap w) (remote w)
                       (stdout w ++ ["Combining CSV files into a single DataFrame..."])
                       (trace w)) Hall)
    as (w1' & Hrun & Htr & Hh & Hr & Ho).
  rewrite (bind_Return _ _ _ _ _ Hrun).
  unfold alloc, mutate, deref, ret, bind. cbn [heap environ remote stdout trace].
  rewrite Hh. cbn [heap]. rewrite lookup_alter_eq, lookup_insert_eq. simpl.
  eexists. split; [reflexivity |]. simpl.
  split; [| by rewrite Htr, Hr].
  apply map_eq. intros l. destruct (decide (l = fresh (dom (heap w)))) as [-> | Hne].
  - rewrite lookup_alter_eq, !lookup_insert_eq. simpl. by rewrite rename_identity.
  - by rewrite lookup_alter_ne.
Qed.

End Builder.

(** ** Properties of the Table Builder *)

(** C7.  From files that parse, the builder returns a new table whose
    rows are the rows of the first file, then of the second, and so on,
    as many as the files hold together, none dropped and none merged;
    each row is laid on the combined columns and its cells are brought
    to the common type of their column.  When the files share one column
    list the [i]-th row of the result is the [i]-th row of the files
    taken one after the other, so converted.  From the empty list the
    builder returns an empty table and raises nothing. *)
Theorem combine_appends_rows_in_order
        (read_csv : bytes -> Exc + DataFrame)
        (promote : list DataFrame -> string -> Cell -> Cell)
        (hs : list Handle) (ts : list DataFrame) (w : World) :
  Forall2 (fun h t => read_csv (h_data h) = inr t) hs ts ->
  exists l w' out,
    combine_csvs_to_dataframe read_csv promote hs w = (Return l, w')
    /\ heap w !! l = None
    /\ heap w' !! l = Some out
    /\ (hs = [] -> out = DataFrame_new)
    /\ df_len out = list_sum (map df_len ts)
    /\ rows out
       = flat_map (fun t => map (fun r => Pandas.cast (promote ts) (columns out)
                                            (Pandas.reindex (columns t) (columns out) r))
                                (rows t)) ts
    /\ (forall cols, hs <> [] -> NoDup cols ->
          Forall (fun t => columns t = cols /\ df_wf t) ts ->
          columns out = cols
          /\ rows out = map (Pandas.cast (promote ts) cols) (concat (map rows ts))
          /\ Forall2 (fun r' r => length r' = length r)
                     (rows out) (concat (map rows ts))).
Proof.
  intros Hall.
  assert (Hfresh : heap w !! fresh (dom (heap w)) = None)
    by apply not_elem_of_dom, is_fresh.
  destruct hs as [|h hs].
  - apply Forall2_nil_inv_l in Hall as ->.
    exists (fresh (dom (heap w))). eexists. exists DataFrame_new.
    split; [reflexivity |]. split; [done |]. simpl.
    split; [apply lookup_insert_eq |]. done.
  - destruct (combine_spec read_csv promote h hs ts w Hall) as (w' & Hrun & Hh & _).
    exists (fresh (dom (heap w))), w', (Pandas.concat promote ts).
    split; [done |]. split; [done |].
    split; [rewrite Hh; apply lookup_insert_eq |].
    split; [done |]. split; [apply concat_len |]. split; [done |].
    intros cols _ Hnd Hsame. destruct ts as [|t ts]; [by inversion Hall |].
    rewrite (concat_same promote cols t ts Hnd Hsame). cbn [columns rows].
    split; [done |]. split; [done |].
    apply Forall2_fmap_l, Forall_Forall2_diag, Forall_forall. intros r Hr.
    unfold compose, Pandas.cast. rewrite length_zip_with.
    assert (Hlen : length r = length cols); [| lia].
    apply list_elem_of_In, in_concat in Hr as (rs & Hrs & Hr).
    apply in_map_iff in Hrs as (t' & <- & Ht').
    rewrite Forall_forall in Hsame.
    destruct (Hsame t' (proj2 (list_elem_of_In _ _) Ht')) as [Hc Hwf].
    unfold df_wf in Hwf. rewrite Forall_forall in Hwf.
    rewrite <- Hc. apply Hwf. by apply list_elem_of_In.
Qed.

Lemma combine_appends_rows_in_order_witness :
  exists l w' out,
    combine_csvs_to_dataframe Demo.read_csv Demo.to_float
      [mkHandle "ProductOverview_1.csv" (repeat Byte.x00 3);
       mkHandle "ProductOverview_2.csv" (repeat Byte.x00 2)] Demo.empty_world
    = (Return l, w')
    /\ heap w' !! l = Some out
    /\ columns out = ["DSLD ID"; "Product Name"; "Bar Code"]
    /\ rows out
       = map (Pandas.cast (Demo.to_float [Demo.table 3; Demo.table 2])
                          ["DSLD ID"; "Product Name"; "Bar Code"])
             (rows (Demo.table 3) ++ rows (Demo.table 2)).
Proof.
  destruct (combine_appends_rows_in_order Demo.read_csv Demo.to_float
              [mkHandle "ProductOverview_1.csv" (repeat Byte.x00 3);
               mkHandle "ProductOverview_2.csv" (repeat Byte.x00 2)]
              [Demo.table 3; Demo.table 2] Demo.empty_world)
    as (l & w' & out & Hrun & _ & Hout & _ & _ & _ & Hsame).
  - repeat constructor.
  - destruct (Hsame ["DSLD ID"; "Product Name"; "Bar Code"]) as (Hcols & Hrows & _).
    + discriminate.
    + vm_compute. repeat constructor; set_solver.
    + repeat constructor.
    + exists l, w', out. split; [exact Hrun |]. split; [exact Hout |].
      split; [exact Hcols |]. rewrite Hrows. reflexivity.
Defined.

(** ** The destination table under upserts *)

Section DestinationTheory.

Variable col : string.
Implicit Types (tbl : Store) (r : PyRecord).

Local Abbreviation keys tbl := (map (fun x : PyRecord => x !! col) tbl).

Lemma upsert_row_new tbl r :
  ~ In (r !! col) (keys tbl) -> Destination.upsert_row col r tbl = tbl ++ [r].
Proof.
  induction tbl as [|x tbl IH]; intros Hnew; [done |]. simpl in *.
  destruct (decide (x !! col = r !! col)) as [E | _]; [destruct Hnew; by left |].
  rewrite IH; [done |]. intros Hin. apply Hnew. by right.
Qed.

Lemma upsert_row_in_place tbl r :
  In (r !! col) (keys tbl) ->
  exists i x, tbl !! i = Some x /\ x !! col = r !! col
              /\ Destination.upsert_row col r tbl = <[i := r]> tbl.
Proof.
  induction tbl as [|x tbl IH]; intros Hin; [done |]. simpl in *.
  destruct (decide (x !! col = r !! col)) as [E | Hne].
  - by exists 0, x.
  - destruct Hin as [Hx | Hin]; [done |].
    destruct (IH Hin) as (i & y & Hi & Hy & ->). by exists (S i), y.
Qed.

Lemma upsert_row_keys_known tbl r :
  In (r !! col) (keys tbl) -> keys (Destination.upsert_row col r tbl) = keys tbl.
Proof.
  induction tbl as [|x tbl IH]; intros Hin; [done |]. simpl in *.
  destruct (decide (x !! col = r !! col)) as [E | Hne]; simpl.
  - by rewrite E.
  - destruct Hin as [Hx | Hin]; [done |]. by rewrite IH.
Qed.

Lemma upsert_row_keys tbl r :
  keys (Destination.upsert_row col r tbl)
  = if decide (r !! col ∈ keys tbl) then keys tbl else keys tbl ++ [r !! col].
Proof.
  destruct (decide (r !! col ∈ keys tbl)) as [Hin | Hnew].
  - apply upsert_row_keys_known. by apply list_elem_of_In.
  - rewrite upsert_row_new, map_app; [done |]. by rewrite <- list_elem_of_In.
Qed.

Lemma upsert_row_NoDup tbl r :
  NoDup (keys tbl) -> NoDup (keys (Destination.upsert_row col r tbl)).
Proof.
  intros Hnd. rewrite upsert_row_keys. destruct (decide _) as [Hin | Hnew]; [done |].
  apply NoDup_app. split; [done |]. split; [| apply NoDup_singleton].
  intros k Hk Hk'. apply list_elem_of_singleton in Hk'. by subst.
Qed.

Lemma upsert_row_keeps_keys tbl r k :
  In k (keys tbl) -> In k (keys (Destination.upsert_row col r tbl)).
Proof.
  intros Hk. rewrite upsert_row_keys. destruct (decide _); [done |].
  apply in_or_app. by left.
Qed.

Lemma upsert_row_has_key tbl r :
  In (r !! col) (keys (Destination.upsert_row col r tbl)).
Proof.
  rewrite upsert_row_keys. destruct (decide _) as [Hin | _].
  - by apply list_elem_of_In.
  - apply in_or_app. right. by left.
Qed.

Lemma upsert_rows_NoDup rs tbl :
  NoDup (keys tbl) -> NoDup (keys (Destination.upsert_rows col rs tbl)).
Proof.
  revert tbl. induction rs as [|r rs IH]; intros tbl Hnd; [done |].
  simpl. apply IH. by apply upsert_row_NoDup.
Qed.

Lemma upsert_rows_keeps_keys rs tbl k :
  In k (keys tbl) -> In k (keys (Destination.upsert_rows col rs tbl)).
Proof.
  revert tbl. induction rs as [|r rs IH]; intros tbl Hk; [done |].
  simpl. apply IH. by apply upsert_row_keeps_keys.
Qed.

Lemma upsert_rows_has_keys rs tbl r :
  In r rs -> In (r !! col) (keys (Destination.upsert_rows col rs tbl)).
Proof.
  revert tbl. induction rs as [|r' rs IH]; intros tbl Hin; [done |].
  simpl. destruct Hin as [-> | Hin]; [| by apply IH].
  apply upsert_rows_keeps_keys, upsert_row_has_key.
Qed.

Lemma upsert_rows_app rs1 rs2 tbl :
  Destination.upsert_rows col (rs1 ++ rs2) tbl
  = Destination.upsert_rows col rs2 (Destination.upsert_rows col rs1 tbl).
Proof. unfold Destination.upsert_rows. apply fold_left_app. Qed.

End DestinationTheory.

Lemma conflict_column_DSLD_ID : Destination.conflict_column ON_CONFLICT = "DSLD ID".
Proof. reflexivity. Qed.

(** The modelled store takes every batch of the writer. *)
Lemma commit_destination client (bs : list (list PyRecord)) (s : Store) :
  commit Destination.execute client bs s
  = inr (Destination.upsert_rows "DSLD ID" (concat bs) s).
Proof.
  revert s. induction bs as [|b bs IH]; intros s; [done |].
  simpl commit. rewrite IH. simpl concat. by rewrite upsert_rows_app.
Qed.

(** ** Properties of the upsert *)

(** C9.  Every chunk goes out as one upsert request against the table
    [dsld_supplements] with the conflict column [DSLD ID].  Against a
    store that overwrites in place the row holding an ID already present
    and inserts a row with a new ID, a destination with no ID twice ends
    with no ID twice and with the ID of every record sent. *)
Theorem upsert_on_DSLD_ID_never_duplicates
        (df : positive) (client : Client) (w : World) (t : DataFrame) :
  heap w !! df = Some t ->
  df_empty t = false ->
  NoDup (Destination.ids (remote w)) ->
  exists calls w',
    upload_dataframe_to_supabase Destination.execute df client w = (Return tt, w')
    /\ trace w' = trace w
         ++ flat_map (fun b => [EvUpsert client
                                  (mkRequest "dsld_supplements" (PyStr.quoted "DSLD ID") b);
                                EvSleep 1]) calls
    /\ concat calls = records_of t
    /\ Destination.conflict_column (PyStr.quoted "DSLD ID") = "DSLD ID"
    /\ remote w' = Destination.upsert_rows "DSLD ID" (records_of t) (remote w)
    /\ NoDup (Destination.ids (remote w'))
    /\ (forall r, In r (records_of t) ->
          In (r !! "DSLD ID") (Destination.ids (remote w')))
    /\ (forall k, In k (Destination.ids (remote w)) ->
          In k (Destination.ids (remote w')))
    /\ (forall (tbl : Store) (r : PyRecord),
          In (r !! "DSLD ID") (Destination.ids tbl) ->
          exists i x, tbl !! i = Some x /\ x !! "DSLD ID" = r !! "DSLD ID"
                      /\ Destination.upsert_row "DSLD ID" r tbl = <[i := r]> tbl)
    /\ (forall (tbl : Store) (r : PyRecord),
          ~ In (r !! "DSLD ID") (Destination.ids tbl) ->
          Destination.upsert_row "DSLD ID" r tbl = tbl ++ [r]).
Proof.
  intros Hdf Hne Hnd.
  set (calls := map (batch (records_of t)) (seq 0 (ceil_div (df_len t) batch_size))).
  assert (Hcat : concat calls = records_of t).
  { unfold calls. rewrite <- records_of_length. apply batches_concat. }
  destruct (upload_ok_spec Destination.execute df client w t
              (Destination.upsert_rows "DSLD ID" (concat calls) (remote w)) Hdf Hne
              (commit_destination client calls (remote w)))
    as (w' & Hrun & Htr & Hr & _).
  rewrite Hcat in Hr.
  exists calls, w'. split; [done |]. split; [exact Htr |]. split; [done |].
  split; [reflexivity |]. split; [done |]. rewrite Hr.
  split; [by apply upsert_rows_NoDup |].
  split; [intros r Hin; by apply upsert_rows_has_keys |].
  split; [intros k Hk; by apply upsert_rows_keeps_keys |].
  split; [apply upsert_row_in_place | apply upsert_row_new].
Qed.

Lemma upsert_on_DSLD_ID_never_duplicates_witness :
  exists w',
    upload_dataframe_to_supabase Destination.execute 1%positive Demo.client
                                 (Demo.stocked_world 3) = (Return tt, w')
    /\ Destination.ids (remote w') = [Some (CInt 1); Some (CInt 0); Some (CInt 2)].
Proof.
  destruct (upsert_on_DSLD_ID_never_duplicates 1%positive Demo.client
              (Demo.stocked_world 3) (Demo.table 3))
    as (calls & w' & Hrun & _ & _ & _ & Hr & _).
  - reflexivity.
  - reflexivity.
  - vm_compute. repeat constructor. set_solver.
  - exists w'. split; [exact Hrun |]. rewrite Hr. vm_compute. reflexivity.
Defined.

(** ** Properties of the start-up guard and of a refused upload *)

Section Startup.

Variable dotenv_file : list (string * string).

(** A variable neither set in the process environment nor named in
    the [.env] file is absent after [load_dotenv()]. *)
Lemma fold_insert_other (l : list (string * string)) (d : gmap string string) name :
  ~ In name (map fst l) ->
  fold_left (fun d kv => <[fst kv := snd kv]> d) l d !! name = d !! name.
Proof.
  revert d. induction l as [|[k v] l IH]; intros d Hnot; [done |].
  simpl in *. rewrite IH by (intros Hin; apply Hnot; by right).
  apply lookup_insert_ne. intros ->. apply Hnot. by left.
Qed.

Lemma load_dotenv_absent name w :
  environ w !! name = None ->
  ~ In name (map fst dotenv_file) ->
  environ (snd (load_dotenv dotenv_file w)) !! name = None.
Proof.
  intros Henv Hnot. unfold load_dotenv. cbn [snd environ].
  apply lookup_union_None. split; [done |].
  unfold dotenv_values. by rewrite fold_insert_other.
Qed.

Lemma module_init_missing w :
  environ (snd (load_dotenv dotenv_file w)) !! "SUPABASE_URL" = None
  \/ environ (snd (load_dotenv dotenv_file w)) !! "SUPABASE_SERVICE_KEY" = None ->
  module_init dotenv_file w
  = (Raise (SystemExit None),
     mkWorld (environ (snd (load_dotenv dotenv_file w))) (heap w) (remote w)
             (stdout w ++ ["Error: Supabase URL and Key must be set in your .env file."])
             (trace w)).
Proof.
  intros Hmiss. unfold module_init, environ_get, print, raise, bind.
  cbn [fst snd load_dotenv environ heap remote stdout trace].
  destruct Hmiss as [H | H]; simpl in H; rewrite H.
  - reflexivity.
  - by rewrite orb_true_r.
Qed.

End Startup.

(** C4, as the code has it.  When the store URL or the store key is
    absent from the environment once the [.env] file is loaded, the
    script prints the diagnostic and halts by [exit()], that is by
    [SystemExit] without a code: no GET, no parse, no client and no
    upsert is made, no table object is created, and the exit status is
    0. *)
Theorem missing_config_halts_before_work
        (dotenv_file : list (string * string))
        (http_get : string -> string + Response)
        (zip_parse : bytes -> Exc + list Member)
        (read_csv : bytes -> Exc + DataFrame)
        (promote : list DataFrame -> string -> Cell -> Cell)
        (new_client : string -> string -> Exc + Client)
        (remote_execute : Client -> Request -> Store -> Exc + (Store * list PyRecord))
        (w : World) :
  environ (snd (load_dotenv dotenv_file w)) !! "SUPABASE_URL" = None
  \/ environ (snd (load_dotenv dotenv_file w)) !! "SUPABASE_SERVICE_KEY" = None ->
  exists w',
    script dotenv_file http_get zip_parse read_csv promote new_client remote_execute w
    = (Raise (SystemExit None), w')
    /\ stdout w'
       = stdout w ++ ["Error: Supabase URL and Key must be set in your .env file."]
    /\ trace w' = trace w
    /\ heap w' = heap w
    /\ remote w' = remote w
    /\ exit_status (@Raise unit (SystemExit None)) = 0%Z.
Proof.
  intros Hmiss. unfold script.
  rewrite (bind_Raise _ _ _ _ _ (module_init_missing dotenv_file w Hmiss)).
  by eexists.
Qed.

Lemma missing_config_halts_before_work_witness :
  exists w',
    script [("SUPABASE_URL", "https://db.example")] Demo.http_ok Demo.unzip
           Demo.read_csv Demo.keep Demo.new_client Demo.accepting Demo.empty_world
    = (Raise (SystemExit None), w')
    /\ trace w' = [].
Proof.
  destruct (missing_config_halts_before_work
              [("SUPABASE_URL", "https://db.example")] Demo.http_ok Demo.unzip
              Demo.read_csv Demo.keep Demo.new_client Demo.accepting Demo.empty_world)
    as (w' & Hrun & _ & Htr & _).
  - right. vm_compute. reflexivity.
  - exists w'. split; [exact Hrun | exact Htr].
Defined.

(** C4 fails as stated: with neither variable set the script ends with
    exit status 0, not with a non-zero one. *)
Lemma missing_config_exit_status_counterexample :
  environ (snd (load_dotenv [] Demo.empty_world)) !! "SUPABASE_URL" = None
  /\ environ (snd (load_dotenv [] Demo.empty_world)) !! "SUPABASE_SERVICE_KEY" = None
  /\ ~ (exit_status
          (fst (script [] Demo.http_ok Demo.unzip Demo.read_csv Demo.keep Demo.new_client
                       Demo.accepting Demo.empty_world)) <> 0%Z).
Proof.
  split; [reflexivity |]. split; [reflexivity |].
  intros H. apply H. vm_compute. reflexivity.
Qed.

(** C3, as the code has it.  When the upsert of some batch raises, the
    writer catches the error: it prints it, sends nothing further and
    returns, and [main] goes on to print its closing line and returns
    normally, so the run ends with exit status 0. *)
Theorem remote_error_is_caught_and_main_returns
        (http_get : string -> string + Response)
        (zip_parse : bytes -> Exc + list Member)
        (read_csv : bytes -> Exc + DataFrame)
        (promote : list DataFrame -> string -> Cell -> Cell)
        (new_client : string -> string -> Exc + Client)
        (remote_execute : Client -> Request -> Store -> Exc + (Store * list PyRecord))
        (url key : string) (w w1 w2 w3 : World) (h : Handle) (hs : list Handle)
        (df : positive) (client : Client) (t : DataFrame)
        (k : nat) (sk : Store) (e : Exc) :
  download_and_unzip_data http_get zip_parse DOWNLOAD_URL w = (Return (h :: hs), w1) ->
  combine_csvs_to_dataframe read_csv promote (h :: hs) w1 = (Return df, w2) ->
  create_client new_client url key w2 = (Return client, w3) ->
  heap w3 !! df = Some t ->
  df_empty t = false ->
  k * batch_size < df_len t ->
  commit remote_execute client (map (batch (records_of t)) (seq 0 k)) (remote w3) = inr sk ->
  remote_execute client (upsert_request (batch (records_of t) k)) sk = inl e ->
  is_Exception e = true ->
  exists w' out,
    main http_get zip_parse read_csv promote new_client remote_execute url key w = (Return tt, w')
    /\ exit_status (@Return unit tt) = 0%Z
    /\ stdout w'
       = out ++ ["An error occurred during the Supabase upload: " +:+ str_exc e;
                 "Script finished."]
    /\ trace w' = trace w3
                  ++ flat_map (batch_events client) (map (batch (records_of t)) (seq 0 k))
                  ++ [EvUpsert client (upsert_request (batch (records_of t) k))]
    /\ remote w' = sk.
Proof.
  intros Hd Hc Hn Hdf Hne Hk Hcommit He Hexc.
  rewrite (main_reaches_writer _ _ _ _ _ remote_execute _ _ _ _ _ _ _ _ _ _ Hd Hc Hn).
  destruct (upload_fail_spec remote_execute df client w3 t k sk e
              Hdf Hne Hk Hcommit He Hexc)
    as (w4 & Hrun & Htr & Hr & out & Hout).
  rewrite (bind_Return _ _ _ _ _ Hrun). unfold print.
  eexists. exists out. split; [reflexivity |]. split; [reflexivity |].
  cbn [stdout trace remote]. rewrite Hout, <- app_assoc. done.
Qed.

Lemma remote_error_is_caught_and_main_returns_witness :
  exists w',
    main Demo.http_ok Demo.unzip Demo.read_csv Demo.keep Demo.new_client Demo.refusing
         "https://db.example" "secret" Demo.empty_world = (Return tt, w')
    /\ remote w' = [].
Proof.
  set (hs := [mkHandle "ProductOverview_2.csv" (repeat Byte.x00 2)]).
  set (h := mkHandle "ProductOverview_1.csv" (repeat Byte.x00 3)).
  set (w1 := snd (download_and_unzip_data Demo.http_ok Demo.unzip DOWNLOAD_URL
                    Demo.empty_world)).
  set (w2 := snd (combine_csvs_to_dataframe Demo.read_csv Demo.keep (h :: hs) w1)).
  set (w3 := snd (create_client Demo.new_client "https://db.example" "secret" w2)).
  destruct (remote_error_is_caught_and_main_returns
              Demo.http_ok Demo.unzip Demo.read_csv Demo.keep Demo.new_client Demo.refusing
              "https://db.example" "secret" Demo.empty_world w1 w2 w3 h hs
              (fresh (dom (heap w1))) Demo.client
              (mkDF ["DSLD ID"; "Product Name"; "Bar Code"]
                    (rows (Demo.table 3) ++ rows (Demo.table 2)))
              0 [] (PyException "APIError" "permission denied"))
    as (w' & out & Hrun & _ & _ & _ & Hr).
  - vm_compute. reflexivity.
  - vm_compute. reflexivity.
  - vm_compute. reflexivity.
  - vm_compute. reflexivity.
  - reflexivity.
  - vm_compute. lia.
  - reflexivity.
  - reflexivity.
  - reflexivity.
  - exists w'. split; [exact Hrun | exact Hr].
Defined.

(** C3 fails as stated: against a store that refuses the first batch the
    script sends that upsert, which raises, and yet returns normally with
    exit status 0 after printing its closing line. *)
Lemma remote_error_not_fatal_counterexample :
  (exists req,
      In (EvUpsert Demo.client req)
         (trace (snd (script Demo.dotenv_file Demo.http_ok Demo.unzip Demo.read_csv Demo.keep
                             Demo.new_client Demo.refusing Demo.empty_world)))
      /\ Demo.refusing Demo.client req []
         = inl (PyException "APIError" "permission denied"))
  /\ fst (script Demo.dotenv_file Demo.http_ok Demo.unzip Demo.read_csv Demo.keep
                 Demo.new_client Demo.refusing Demo.empty_world) = Return tt
  /\ last (stdout (snd (script Demo.dotenv_file Demo.http_ok Demo.unzip Demo.read_csv Demo.keep
                               Demo.new_client Demo.refusing Demo.empty_world)))
     = Some "Script finished."
  /\ ~ (exit_status
          (fst (script Demo.dotenv_file Demo.http_ok Demo.unzip Demo.read_csv Demo.keep
                       Demo.new_client Demo.refusing Demo.empty_world)) <> 0%Z).
Proof.
  split; [| split; [| split]].
  - eexists. split; [| reflexivity].
    vm_compute. do 4 right. left. reflexivity.
  - vm_compute. reflexivity.
  - vm_compute. reflexivity.
  - intros H. apply H. vm_compute. reflexivity.
Qed.


(** * Further properties *)

(** ** The name test of the fetcher *)

Section NameTest.

Lemma startswith_iff p s :
  PyStr.startswith p s = true <-> exists b, s = p +:+ b.
Proof.
  revert s. induction p as [|a p IH]; intros s; simpl.
  - split; [intros _; by exists s | done].
  - destruct s as [|c s].
    + split; [done | intros [b Hb]; discriminate].
    + destruct (Ascii.eqb_spec a c) as [-> | Hne].
      * rewrite IH. split; intros [b Hb]; exists b; [by rewrite Hb | by injection Hb].
      * split; [done | intros [b Hb]; injection Hb as Hac _; by destruct Hne].
Qed.

Lemma contains_iff sub s :
  PyStr.contains sub s = true <-> exists a b, s = a +:+ sub +:+ b.
Proof.
  induction s as [|c s IH].
  - simpl. rewrite orb_false_r, startswith_iff. split.
    + intros [b Hb]. by exists EmptyString, b.
    + intros ([|c a] & b & H); [by exists b | discriminate].
  - simpl. rewrite orb_true_iff, IH, startswith_iff. split.
    + intros [[b Hb] | (a & b & Hab)].
      * by exists EmptyString, b.
      * exists (String c a), b. simpl. by rewrite Hab.
    + intros ([|c' a] & b & H).
      * left. by exists b.
      * right. injection H as _ H. by exists a, b.
Qed.

Lemma substring_past (a b : string) n :
  String.substring (String.length a) n (a +:+ b) = String.substring 0 n b.
Proof. induction a as [|c a IH]; [done | simpl; apply IH]. Qed.

Lemma substring_whole (s : string) : String.substring 0 (String.length s) s = s.
Proof. induction s as [|c s IH]; [done | simpl; by rewrite IH]. Qed.

Lemma length_append (a b : string) :
  String.length (a +:+ b) = String.length a + String.length b.
Proof. induction a as [|c a IH]; [done | simpl; by rewrite IH]. Qed.

(** A string is its first [n] characters followed by the rest. *)
Lemma substring_split (s : string) n :
  n <= String.length s ->
  s = String.substring 0 n s +:+ String.substring n (String.length s - n) s.
Proof.
  revert n. induction s as [|c s IH]; intros n Hn.
  - destruct n; [done | simpl in Hn; lia].
  - destruct n as [|n].
    + simpl. by rewrite substring_whole.
    + simpl. etrans; [| reflexivity]. simpl in Hn.
      rewrite (IH n) at 1 by lia. reflexivity.
Qed.

Lemma endswith_iff suffix s :
  PyStr.endswith suffix s = true <-> exists a, s = a +:+ suffix.
Proof.
  unfold PyStr.endswith. rewrite andb_true_iff, Nat.leb_le, String.eqb_eq. split.
  - intros [Hlen Hsub].
    exists (String.substring 0 (String.length s - String.length suffix) s).
    pose proof (substring_split s (String.length s - String.length suffix)) as Hs.
    replace (String.length s - (String.length s - String.length suffix))
      with (String.length suffix) in Hs by lia.
    rewrite Hsub in Hs. apply Hs. lia.
  - intros [a ->]. rewrite length_append. split; [lia |].
    replace (String.length a + String.length suffix - String.length suffix)
      with (String.length a) by lia.
    by rewrite substring_past, substring_whole.
Qed.

End NameTest.

(** X3.  A member is selected exactly when its name has the text
    [ProductOverview] somewhere in it and [.csv] at its very end; the
    test is on the whole name, directories included, and on the exact
    characters. *)
Theorem matches_iff (name : string) :
  matches name = true
  <-> (exists a b, name = a +:+ "ProductOverview" +:+ b)
      /\ (exists c, name = c +:+ ".csv").
Proof.
  unfold matches, TARGET_FILENAME_CONTAINS.
  by rewrite andb_true_iff, contains_iff, endswith_iff.
Qed.

(** ** The fetcher in every outcome *)

Section FetcherOutcomes.

Variable http_get : string -> string + Response.
Variable zip_parse : bytes -> Exc + list Member.

Local Abbreviation download := (download_and_unzip_data http_get zip_parse).

Lemma select_loop_stdout zf lst acc w :
  (forall m, In m lst -> In m zf) ->
  Forall (openable zf) (List.filter selected lst) ->
  stdout (snd (for_fold lst (select_member zf) acc w))
  = stdout w ++ map (fun m => "Found matching file: " +:+ filename m)
                    (List.filter selected lst).
Proof.
  revert acc w. induction lst as [|x lst IH]; intros acc w Hsub Hopen.
  - simpl. by rewrite app_nil_r.
  - simpl for_fold. simpl List.filter in *. unfold select_member at 1.
    unfold selected at 1 in Hopen. unfold selected at 1.
    destruct (matches (filename x)) eqn:Hx.
    + apply Forall_cons in Hopen as [Hox Hopen].
      destruct (zip_getinfo_member zf x (Hsub x (or_introl eq_refl))) as [m' Hm'].
      unfold zip_open, print, bind, ret. rewrite Hm', (Hox m' Hm').
      rewrite IH by (done || (intros m Hm; apply Hsub; by right)).
      cbn [stdout map]. by rewrite <- app_assoc.
    + unfold bind, ret. apply IH; [| done]. intros m Hm. apply Hsub. by right.
Qed.

(** What the console shows after a fetch that reached a readable
    archive. *)
Lemma download_stdout_ok url w r zf :
  http_get url = inr r -> ~ (400 <= status_code r < 600)%Z ->
  zip_parse (content r) = inr zf ->
  Forall (openable zf) (List.filter selected zf) ->
  stdout (snd (download url w))
  = stdout w ++ ["Downloading data from " +:+ url +:+ "..."]
      ++ map (fun m => "Found matching file: " +:+ filename m) (List.filter selected zf)
      ++ match List.filter selected zf with
         | [] => ["No 'ProductOverview' CSV files found in the zip archive."]
         | _ => []
         end.
Proof.
  intros Hget Hst Hzip Hopen.
  unfold download_and_unzip_data, print. unfold bind at 1. unfold try_except.
  unfold download_try, requests_get, raise_for_status, ZipFile.
  rewrite Hget. unfold bind at 1. unfold bind at 1. unfold emit, ret.
  rewrite (bad_status_false _ Hst). unfold bind at 1. unfold ret, bind at 1.
  rewrite Hzip. unfold ret, bind.
  match goal with |- context [for_fold zf _ [] ?w1] =>
    pose proof (select_loop_stdout zf zf [] w1 (fun m H => H) Hopen) as Hout;
    destruct (select_loop zf zf [] w1) as (w' & Hrun & _); [done | done |]
  end.
  rewrite Hrun in Hout |- *. simpl app. cbn [snd stdout] in Hout.
  destruct (List.filter selected zf) as [|m ms]; simpl in Hout |- *;
    rewrite Hout, <- ?app_assoc; simpl; by rewrite ?app_nil_r.
Qed.

End FetcherOutcomes.

(** X1.  In every outcome the fetcher makes exactly one GET and leaves
    the table objects, the destination and the environment as they
    were.  It returns handles only under names that pass the test.  What
    it raises is never a request error nor a [BadZipFile], which it
    catches, but only another exception of the zip reader: one raised on
    the payload as a whole, or by [open()] on a selected member. *)
Theorem fetch_lets_through_only_other_zip_errors
        (http_get : string -> string + Response)
        (zip_parse : bytes -> Exc + list Member)
        (url : string) (w : World) :
  trace (snd (download_and_unzip_data http_get zip_parse url w))
  = trace w ++ [EvHttpGet url]
  /\ heap (snd (download_and_unzip_data http_get zip_parse url w)) = heap w
  /\ remote (snd (download_and_unzip_data http_get zip_parse url w)) = remote w
  /\ environ (snd (download_and_unzip_data http_get zip_parse url w)) = environ w
  /\ match fst (download_and_unzip_data http_get zip_parse url w) with
     | Return handles => Forall (fun h => matches (h_name h) = true) handles
     | Raise e =>
         (forall msg, e <> RequestException msg)
         /\ (forall msg, e <> BadZipFile msg)
         /\ exists r, http_get url = inr r /\ ~ (400 <= status_code r < 600)%Z
              /\ (zip_parse (content r) = inl e
                  \/ exists zf m, zip_parse (content r) = inr zf /\ In m zf
                       /\ selected m = true /\ unreadable m = Some e)
     end.
Proof.
  rewrite download_unfold.
  match goal with |- context [download_try _ _ _ ?w0] =>
    pose proof (download_try_frame http_get zip_parse url w0) as (Ht & Hh & Hr & He);
    pose proof (download_try_result http_get zip_parse url w0) as Hres;
    destruct (download_try http_get zip_parse url w0) as [[hs | e] w1]
  end; simpl in Ht, Hh, Hr, He, Hres.
  - simpl. repeat (split; [done |]).
    destruct Hres as (r & zf & _ & _ & _ & ->).
    apply Forall_forall. intros h Hh'.
    apply list_elem_of_In, in_map_iff in Hh' as (m & <- & Hm).
    rewrite opened_name. by apply filter_In in Hm as [_ Hm].
  - assert (Hsrc : forall e', e = e' -> (forall msg, e' <> RequestException msg) ->
              exists r, http_get url = inr r /\ ~ (400 <= status_code r < 600)%Z
                /\ (zip_parse (content r) = inl e'
                    \/ exists zf m, zip_parse (content r) = inr zf /\ In m zf
                         /\ selected m = true /\ unreadable m = Some e')).
    { intros e' <- Hnot.
      destruct Hres as [(msg & _ & E) | [(r & _ & _ & E) | (r & Hget & Hok & Hz)]].
      - by destruct (Hnot msg).
      - by destruct (Hnot (http_error_msg r)).
      - by exists r. }
    destruct e as [msg | msg | cls msg | code]; simpl.
    + repeat (split; [done |]). constructor.
    + repeat (split; [done |]). constructor.
    + do 4 (split; [done |]). split; [done |]. split; [done |]. by apply Hsrc.
    + do 4 (split; [done |]). split; [done |]. split; [done |]. by apply Hsrc.
Qed.

(** X2.  After a fetch that reached a readable archive all of whose
    selected members can be opened, the console shows the download line,
    then one line per selected member in listing order, then, when none
    was selected, the line saying that no file was found. *)
Theorem fetch_announces_each_match
        (http_get : string -> string + Response)
        (zip_parse : bytes -> Exc + list Member)
        (url : string) (w : World) (r : Response) (zf : list Member) :
  http_get url = inr r ->
  ~ (400 <= status_code r < 600)%Z ->
  zip_parse (content r) = inr zf ->
  Forall (openable zf) (List.filter selected zf) ->
  stdout (snd (download_and_unzip_data http_get zip_parse url w))
  = stdout w ++ ["Downloading data from " +:+ url +:+ "..."]
      ++ map (fun m => "Found matching file: " +:+ filename m) (List.filter selected zf)
      ++ match List.filter selected zf with
         | [] => ["No 'ProductOverview' CSV files found in the zip archive."]
         | _ => []
         end.
Proof. apply download_stdout_ok. Qed.

Lemma fetch_announces_each_match_witness :
  stdout (snd (download_and_unzip_data Demo.http_ok Demo.unzip DOWNLOAD_URL
                 Demo.empty_world))
  = [ "Downloading data from " +:+ DOWNLOAD_URL +:+ "...";
      "Found matching file: ProductOverview_1.csv";
      "Found matching file: ProductOverview_2.csv" ].
Proof.
  rewrite (fetch_announces_each_match Demo.http_ok Demo.unzip DOWNLOAD_URL
             Demo.empty_world (mkResponse 200 "OK" DOWNLOAD_URL []) Demo.members).
  - reflexivity.
  - reflexivity.
  - simpl. lia.
  - reflexivity.
  - vm_compute. repeat constructor; intros m' Hm'; vm_compute in Hm';
      by injection Hm' as <-.
Defined.

(** X4.  A fetch that fails tells the cause on the console, last and
    right after the download line: a transfer error with the text of
    the exception; an error status with the text of the [HTTPError],
    which reads [<status> Client Error: <reason> for url: <url>] below
    500 and [<status> Server Error: ...] from 500 on; a payload the zip
    reader rejects with [BadZipFile] with the line saying that the file
    is not a valid zip file. *)
Theorem fetch_failure_is_reported
        (http_get : string -> string + Response)
        (zip_parse : bytes -> Exc + list Member)
        (url : string) (w : World) :
  (forall msg, http_get url = inl msg ->
     stdout (snd (download_and_unzip_data http_get zip_parse url w))
     = stdout w ++ ["Downloading data from " +:+ url +:+ "...";
                    "Error downloading the file: " +:+ msg])
  /\ (forall r, http_get url = inr r -> (400 <= status_code r < 600)%Z ->
        stdout (snd (download_and_unzip_data http_get zip_parse url w))
        = stdout w ++ ["Downloading data from " +:+ url +:+ "...";
                       "Error downloading the file: "
                       +:+ pretty (status_code r)
                       +:+ (if (status_code r <? 500)%Z
                            then " Client Error: " else " Server Error: ")
                       +:+ reason r +:+ " for url: " +:+ r_url r])
  /\ (forall r msg, http_get url = inr r -> ~ (400 <= status_code r < 600)%Z ->
        zip_parse (content r) = inl (BadZipFile msg) ->
        stdout (snd (download_and_unzip_data http_get zip_parse url w))
        = stdout w ++ ["Downloading data from " +:+ url +:+ "...";
                       "Error: The downloaded file is not a valid zip file."]).
Proof.
  split; [| split].
  - intros msg Hget.
    unfold download_and_unzip_data, download_try, try_except, requests_get,
      print, emit, raise, ret, bind. rewrite Hget. simpl. by rewrite <- app_assoc.
  - intros r Hget Hst.
    unfold download_and_unzip_data, download_try, try_except, requests_get,
      raise_for_status, print, emit, raise, ret, bind.
    rewrite Hget. cbn [environ heap remote stdout trace].
    rewrite (bad_status_true _ Hst). simpl. by rewrite <- app_assoc.
  - intros r msg Hget Hst Hzip.
    unfold download_and_unzip_data, download_try, try_except, requests_get,
      raise_for_status, ZipFile, print, emit, raise, ret, bind.
    rewrite Hget. cbn [environ heap remote stdout trace].
    rewrite (bad_status_false _ Hst), Hzip. simpl. by rewrite <- app_assoc.
Qed.

Lemma fetch_failure_is_reported_witness :
  stdout (snd (download_and_unzip_data Demo.http_404 Demo.unzip DOWNLOAD_URL
                 Demo.empty_world))
  = [ "Downloading data from " +:+ DOWNLOAD_URL +:+ "...";
      "Error downloading the file: 404 Client Error: Not Found for url: "
      +:+ DOWNLOAD_URL ].
Proof.
  destruct (fetch_failure_is_reported Demo.http_404 Demo.unzip DOWNLOAD_URL
              Demo.empty_world) as (_ & Hstatus & _).
  rewrite (Hstatus (mkResponse 404 "Not Found" DOWNLOAD_URL [])).
  - reflexivity.
  - reflexivity.
  - simpl. lia.
Defined.

(** ** The start-up guard *)

Section Guard.

Variable dotenv_file : list (string * string).

(** [load_dotenv()] changes nothing but the environment. *)
Lemma load_dotenv_frame w :
  heap (snd (load_dotenv dotenv_file w)) = heap w
  /\ remote (snd (load_dotenv dotenv_file w)) = remote w
  /\ stdout (snd (load_dotenv dotenv_file w)) = stdout w
  /\ trace (snd (load_dotenv dotenv_file w)) = trace w.
Proof. done. Qed.

Lemma load_dotenv_keeps name v w :
  environ w !! name = Some v ->
  environ (snd (load_dotenv dotenv_file w)) !! name = Some v.
Proof.
  intros Henv. unfold load_dotenv. cbn [snd environ].
  by apply lookup_union_Some_l.
Qed.

Lemma module_init_falsy w :
  truthy (environ (snd (load_dotenv dotenv_file w)) !! "SUPABASE_URL") = false
  \/ truthy (environ (snd (load_dotenv dotenv_file w)) !! "SUPABASE_SERVICE_KEY") = false ->
  module_init dotenv_file w
  = (Raise (SystemExit None),
     mkWorld (environ (snd (load_dotenv dotenv_file w))) (heap w) (remote w)
             (stdout w ++ ["Error: Supabase URL and Key must be set in your .env file."])
             (trace w)).
Proof.
  intros Hmiss. unfold module_init, environ_get, print, raise, bind.
  cbn [fst snd load_dotenv environ heap remote stdout trace].
  destruct Hmiss as [H | H]; simpl in H; rewrite H.
  - reflexivity.
  - by rewrite orb_true_r.
Qed.

Lemma module_init_passes w url key :
  environ (snd (load_dotenv dotenv_file w)) !! "SUPABASE_URL" = Some url ->
  environ (snd (load_dotenv dotenv_file w)) !! "SUPABASE_SERVICE_KEY" = Some key ->
  url <> EmptyString -> key <> EmptyString ->
  module_init dotenv_file w = (Return (url, key), snd (load_dotenv dotenv_file w)).
Proof.
  intros Hu Hk Hune Hkne. unfold module_init, environ_get, print, raise, ret, bind.
  cbn [fst snd load_dotenv environ heap remote stdout trace].
  simpl in Hu, Hk. rewrite Hu, Hk.
  destruct url; [done |]. destruct key; [done |]. reflexivity.
Qed.

End Guard.

(** X5.  A store URL or key that is set but empty counts as missing: the
    script prints the diagnostic and halts by [exit()] before any GET,
    parse, client or upsert. *)
Theorem empty_config_value_halts
        (dotenv_file : list (string * string))
        (http_get : string -> string + Response)
        (zip_parse : bytes -> Exc + list Member)
        (read_csv : bytes -> Exc + DataFrame)
        (promote : list DataFrame -> string -> Cell -> Cell)
        (new_client : string -> string -> Exc + Client)
        (remote_execute : Client -> Request -> Store -> Exc + (Store * list PyRecord))
        (w : World) :
  environ (snd (load_dotenv dotenv_file w)) !! "SUPABASE_URL" = Some EmptyString
  \/ environ (snd (load_dotenv dotenv_file w)) !! "SUPABASE_SERVICE_KEY"
     = Some EmptyString ->
  exists w',
    script dotenv_file http_get zip_parse read_csv promote new_client remote_execute w
    = (Raise (SystemExit None), w')
    /\ stdout w'
       = stdout w ++ ["Error: Supabase URL and Key must be set in your .env file."]
    /\ trace w' = trace w
    /\ heap w' = heap w
    /\ remote w' = remote w.
Proof.
  intros Hempty. unfold script.
  rewrite (bind_Raise _ _ _ _ _ (module_init_falsy dotenv_file w
             ltac:(destruct Hempty as [-> | ->]; [by left | by right]))).
  by eexists.
Qed.

Lemma empty_config_value_halts_witness :
  exists w',
    script [("SUPABASE_URL", "https://db.example"); ("SUPABASE_SERVICE_KEY", EmptyString)]
           Demo.http_ok Demo.unzip Demo.read_csv Demo.keep Demo.new_client Demo.accepting
           Demo.empty_world
    = (Raise (SystemExit None), w')
    /\ trace w' = [].
Proof.
  destruct (empty_config_value_halts
              [("SUPABASE_URL", "https://db.example"); ("SUPABASE_SERVICE_KEY", EmptyString)]
              Demo.http_ok Demo.unzip Demo.read_csv Demo.keep Demo.new_client Demo.accepting
              Demo.empty_world)
    as (w' & Hrun & _ & Htr & _).
  - right. vm_compute. reflexivity.
  - exists w'. split; [exact Hrun | exact Htr].
Defined.

(** X6.  With both variables set and non-empty the guard prints nothing
    and the script is [main] run with exactly those two values; a value
    set in the process environment is the one used, whatever the [.env]
    file holds for that name. *)
Theorem process_environment_configures_main
        (dotenv_file : list (string * string))
        (http_get : string -> string + Response)
        (zip_parse : bytes -> Exc + list Member)
        (read_csv : bytes -> Exc + DataFrame)
        (promote : list DataFrame -> string -> Cell -> Cell)
        (new_client : string -> string -> Exc + Client)
        (remote_execute : Client -> Request -> Store -> Exc + (Store * list PyRecord))
        (w : World) (url key : string) :
  environ w !! "SUPABASE_URL" = Some url ->
  environ w !! "SUPABASE_SERVICE_KEY" = Some key ->
  url <> EmptyString -> key <> EmptyString ->
  script dotenv_file http_get zip_parse read_csv promote new_client remote_execute w
  = main http_get zip_parse read_csv promote new_client remote_execute url key
         (snd (load_dotenv dotenv_file w))
  /\ stdout (snd (load_dotenv dotenv_file w)) = stdout w
  /\ trace (snd (load_dotenv dotenv_file w)) = trace w.
Proof.
  intros Hu Hk Hune Hkne. split; [| done]. unfold script.
  by rewrite (bind_Return _ _ _ _ _
                (module_init_passes dotenv_file w url key
                   (load_dotenv_keeps dotenv_file _ _ w Hu)
                   (load_dotenv_keeps dotenv_file _ _ w Hk) Hune Hkne)).
Qed.

Lemma process_environment_configures_main_witness :
  script [("SUPABASE_URL", "https://other.example")] Demo.http_404 Demo.unzip
         Demo.read_csv Demo.keep Demo.new_client Demo.accepting Demo.configured_world
  = main Demo.http_404 Demo.unzip Demo.read_csv Demo.keep Demo.new_client Demo.accepting
         "https://db.example" "secret"
         (snd (load_dotenv [("SUPABASE_URL", "https://other.example")]
                           Demo.configured_world)).
Proof.
  apply (process_environment_configures_main
           [("SUPABASE_URL", "https://other.example")] Demo.http_404 Demo.unzip
           Demo.read_csv Demo.keep Demo.new_client Demo.accepting Demo.configured_world
           "https://db.example" "secret").
  - vm_compute. reflexivity.
  - vm_compute. reflexivity.
  - discriminate.
  - discriminate.
Defined.

(** ** The writer at its edges *)

(** X7.  A table without rows, and equally one with rows but without
    columns, is not uploaded: the writer prints one line and returns,
    having sent nothing, copied nothing and changed nothing at the
    destination. *)
Theorem upload_of_empty_table_sends_nothing
        (remote_execute : Client -> Request -> Store -> Exc + (Store * list PyRecord))
        (df : positive) (client : Client) (w : World) (t : DataFrame) :
  heap w !! df = Some t ->
  columns t = [] \/ rows t = [] ->
  exists w',
    upload_dataframe_to_supabase remote_execute df client w = (Return tt, w')
    /\ stdout w' = stdout w ++ ["DataFrame is empty. Nothing to upload."]
    /\ trace w' = trace w
    /\ heap w' = heap w
    /\ remote w' = remote w.
Proof.
  intros Hdf Hempty.
  assert (He : df_empty t = true).
  { unfold df_empty. destruct Hempty as [-> | ->]; [done |]. by destruct (columns t). }
  rewrite (upload_empty remote_execute df client w t Hdf He). by eexists.
Qed.

Lemma upload_of_empty_table_sends_nothing_witness :
  exists w',
    upload_dataframe_to_supabase Demo.accepting 1%positive Demo.client
      (mkWorld ∅ {[ 1%positive := Demo.columnless ]} [] [] []) = (Return tt, w')
    /\ trace w' = [].
Proof.
  destruct (upload_of_empty_table_sends_nothing Demo.accepting 1%positive Demo.client
              (mkWorld ∅ {[ 1%positive := Demo.columnless ]} [] [] []) Demo.columnless)
    as (w' & Hrun & _ & Htr & _).
  - reflexivity.
  - by left.
  - exists w'. split; [exact Hrun | exact Htr].
Defined.

Section WriterEscape.

Variable remote_execute : Client -> Request -> Store -> Exc + (Store * list PyRecord).

(** Batch [k] is refused with something the handler does not catch. *)
Lemma upload_escape_spec df client w t k sk e :
  heap w !! df = Some t -> df_empty t = false ->
  k * batch_size < df_len t ->
  commit remote_execute client (map (batch (records_of t)) (seq 0 k)) (remote w)
    = inr sk ->
  remote_execute client (upsert_request (batch (records_of t) k)) sk = inl e ->
  is_Exception e = false ->
  exists w', upload_dataframe_to_supabase remote_execute df client w = (Raise e, w')
    /\ trace w' = trace w
                  ++ flat_map (batch_events client) (map (batch (records_of t)) (seq 0 k))
                  ++ [EvUpsert client (upsert_request (batch (records_of t) k))]
    /\ remote w' = sk.
Proof.
  intros Hdf Hne Hk Hc He Hexc. rewrite (upload_nonempty _ _ _ _ _ Hdf Hne).
  rewrite <- records_of_length in Hk.
  apply (lt_ceil_div _ _ _ batch_size_pos) in Hk.
  rewrite py_range_seq by apply batch_size_pos.
  replace (ceil_div (length (records_of t)) batch_size)
    with (k + S (ceil_div (length (records_of t)) batch_size - S k)) by lia.
  rewrite seq_app, map_app, Nat.add_0_l. cbn [seq]. rewrite map_cons.
  match goal with |- context [for_each _ _ ?w1] =>
    destruct (upload_loop_fail remote_execute client (records_of t)
                (length (records_of t))
                (map (fun j => j * batch_size) (seq 0 k)) (k * batch_size)
                (map (fun j => j * batch_size)
                     (seq (S k) (ceil_div (length (records_of t)) batch_size - S k)))
                w1 sk e) as (w2 & -> & Htr & Hr & _)
  end.
  - cbn [remote]. rewrite map_map. exact Hc.
  - exact He.
  - rewrite Hexc. exists w2. split; [reflexivity |].
    rewrite Htr, loop_events, map_map. by cbn [trace].
Qed.

End WriterEscape.

(** X8.  The writer's handler takes exceptions of class [Exception]
    only: when the upsert of batch [k] ends in a [SystemExit], the writer
    does not print an error line and does not return; the exit request
    leaves the writer, no further batch is sent and the batches before
    stay written. *)
Theorem upload_lets_exit_through
        (remote_execute : Client -> Request -> Store -> Exc + (Store * list PyRecord))
        (df : positive) (client : Client) (w : World) (t : DataFrame)
        (k : nat) (sk : Store) (code : option Z) :
  heap w !! df = Some t ->
  df_empty t = false ->
  k * batch_size < df_len t ->
  commit remote_execute client (map (batch (records_of t)) (seq 0 k)) (remote w) = inr sk ->
  remote_execute client (upsert_request (batch (records_of t) k)) sk
  = inl (SystemExit code) ->
  exists w',
    upload_dataframe_to_supabase remote_execute df client w
    = (Raise (SystemExit code), w')
    /\ upsert_calls (trace w')
       = upsert_calls (trace w) ++ map (batch (records_of t)) (seq 0 (S k))
    /\ remote w' = sk.
Proof.
  intros Hdf Hne Hk Hc He.
  destruct (upload_escape_spec remote_execute df client w t k sk (SystemExit code)
              Hdf Hne Hk Hc He eq_refl) as (w' & Hrun & Htr & Hr).
  exists w'. split; [done |]. split; [| done].
  rewrite Htr, !upsert_calls_app, upsert_calls_batches.
  rewrite seq_S, map_app. simpl. done.
Qed.

Lemma upload_lets_exit_through_witness :
  exists w',
    upload_dataframe_to_supabase Demo.interrupted 1%positive Demo.client
                                 (Demo.world_with 3)
    = (Raise (SystemExit (Some 130%Z)), w')
    /\ remote w' = [].
Proof.
  destruct (upload_lets_exit_through Demo.interrupted 1%positive Demo.client
              (Demo.world_with 3) (Demo.table 3) 0 [] (Some 130%Z))
    as (w' & Hrun & _ & Hr).
  - reflexivity.
  - reflexivity.
  - vm_compute. lia.
  - reflexivity.
  - reflexivity.
  - exists w'. split; [exact Hrun | exact Hr].
Defined.

(** ** Errors the orchestrator does not handle *)

Section Unhandled.

Variable http_get : string -> string + Response.
Variable zip_parse : bytes -> Exc + list Member.
Variable read_csv : bytes -> Exc + DataFrame.
Variable promote : list DataFrame -> string -> Cell -> Cell.
Variable new_client : string -> string -> Exc + Client.
Variable remote_execute : Client -> Request -> Store -> Exc + (Store * list PyRecord).

Local Abbreviation reads hs := (map (fun h : Handle => EvReadCsv (h_name h)) hs).

(** The comprehension stops at the first file the parser refuses. *)
Lemma read_stops hs1 ts1 h hs2 e w :
  Forall2 (fun h t => read_csv (h_data h) = inr t) hs1 ts1 ->
  read_csv (h_data h) = inl e ->
  exists w',
    list_comp (hs1 ++ h :: hs2) (pd_read_csv read_csv) w = (Raise e, w')
    /\ trace w' = trace w ++ reads (hs1 ++ [h])
    /\ heap w' = heap w /\ remote w' = remote w /\ stdout w' = stdout w.
Proof.
  intros Hall He. revert w. induction Hall as [|h1 t1 hs1 ts1 Ht _ IH]; intros w.
  - simpl. unfold pd_read_csv, emit, raise, bind. rewrite He. by eexists.
  - simpl list_comp. unfold pd_read_csv at 1. rewrite Ht.
    unfold emit, bind at 1 2. unfold ret at 1.
    destruct (IH (mkWorld (environ w) (heap w) (remote w) (stdout w)
                          (trace w ++ [EvReadCsv (h_name h1)])))
      as (w' & Hrun & Htr & Hh & Hr & Ho).
    exists w'. rewrite (bind_Raise _ _ _ _ _ Hrun).
    rewrite Htr, Hh, Hr, Ho. simpl. by rewrite <- app_assoc.
Qed.

Lemma combine_stops hs1 ts1 h hs2 e w :
  Forall2 (fun h t => read_csv (h_data h) = inr t) hs1 ts1 ->
  read_csv (h_data h) = inl e ->
  exists w',
    combine_csvs_to_dataframe read_csv promote (hs1 ++ h :: hs2) w = (Raise e, w')
    /\ trace w' = trace w ++ reads (hs1 ++ [h])
    /\ heap w' = heap w /\ remote w' = remote w.
Proof.
  intros Hall He.
  destruct (read_stops hs1 ts1 h hs2 e
              (mkWorld (environ w) (heap w) (remote w)
                       (stdout w ++ ["Combining CSV files into a single DataFrame..."])
                       (trace w)) Hall He)
    as (w' & Hrun & Htr & Hh & Hr & _).
  exists w'. split; [| done].
  unfold combine_csvs_to_dataframe.
  destruct (hs1 ++ h :: hs2) as [|x l] eqn:E; [by destruct hs1 |].
  unfold print. unfold bind at 1. by rewrite (bind_Raise _ _ _ _ _ Hrun).
Qed.

Lemma main_past_fetch url key w hs w1 :
  hs <> [] ->
  download_and_unzip_data http_get zip_parse DOWNLOAD_URL w = (Return hs, w1) ->
  main http_get zip_parse read_csv promote new_client remote_execute url key w
  = bind (combine_csvs_to_dataframe read_csv promote hs)
         (fun product_dataframe =>
            bind (create_client new_client url key)
                 (fun supabase_client =>
                    bind (upload_dataframe_to_supabase remote_execute
                            product_dataframe supabase_client)
                         (fun _ => print "Script finished."))) w1.
Proof.
  intros Hne Hd. unfold main. rewrite (bind_Return _ _ _ _ _ Hd). by destruct hs.
Qed.

End Unhandled.

(** X9.  A matching file the parser refuses ends the run: the builder
    raises the parser's exception at that file, the files after it are
    not read, and [main] lets the exception through without creating a
    client, building a table or sending an upsert. *)
Theorem parse_error_ends_the_run
        (http_get : string -> string + Response)
        (zip_parse : bytes -> Exc + list Member)
        (read_csv : bytes -> Exc + DataFrame)
        (promote : list DataFrame -> string -> Cell -> Cell)
        (new_client : string -> string -> Exc + Client)
        (remote_execute : Client -> Request -> Store -> Exc + (Store * list PyRecord))
        (url key : string) (w w1 : World)
        (hs1 : list Handle) (ts1 : list DataFrame) (h : Handle) (hs2 : list Handle)
        (e : Exc) :
  download_and_unzip_data http_get zip_parse DOWNLOAD_URL w
  = (Return (hs1 ++ h :: hs2), w1) ->
  Forall2 (fun h t => read_csv (h_data h) = inr t) hs1 ts1 ->
  read_csv (h_data h) = inl e ->
  exists w',
    main http_get zip_parse read_csv promote new_client remote_execute url key w = (Raise e, w')
    /\ trace w' = trace w1 ++ map (fun h => EvReadCsv (h_name h)) (hs1 ++ [h])
    /\ heap w' = heap w1
    /\ remote w' = remote w1
    /\ (is_Exception e = true -> exit_status (@Raise unit e) = 1%Z).
Proof.
  intros Hd Hall He.
  assert (Hne : hs1 ++ h :: hs2 <> []) by (by destruct hs1).
  rewrite (main_past_fetch _ _ read_csv promote new_client remote_execute url key w _ w1 Hne Hd).
  destruct (combine_stops read_csv promote hs1 ts1 h hs2 e w1 Hall He)
    as (w' & Hrun & Htr & Hh & Hr).
  exists w'. rewrite (bind_Raise _ _ _ _ _ Hrun).
  repeat (split; [done |]). by destruct e.
Qed.

Lemma parse_error_ends_the_run_witness :
  exists w',
    main Demo.http_ok Demo.unzip_gap Demo.read_csv_strict Demo.keep Demo.new_client Demo.accepting
         "https://db.example" "secret" Demo.empty_world
    = (Raise (PyException "EmptyDataError" "No columns to parse from file"), w')
    /\ trace w' = [ EvHttpGet DOWNLOAD_URL;
                    EvReadCsv "ProductOverview_1.csv";
                    EvReadCsv "ProductOverview_2.csv" ].
Proof.
  destruct (parse_error_ends_the_run
              Demo.http_ok Demo.unzip_gap Demo.read_csv_strict Demo.keep Demo.new_client
              Demo.accepting "https://db.example" "secret" Demo.empty_world
              (snd (download_and_unzip_data Demo.http_ok Demo.unzip_gap DOWNLOAD_URL
                      Demo.empty_world))
              [mkHandle "ProductOverview_1.csv" (repeat Byte.x00 3)] [Demo.table 3]
              (mkHandle "ProductOverview_2.csv" [])
              [mkHandle "ProductOverview_3.csv" (repeat Byte.x00 2)]
              (PyException "EmptyDataError" "No columns to parse from file"))
    as (w' & Hrun & Htr & _).
  - vm_compute. reflexivity.
  - repeat constructor.
  - reflexivity.
  - exists w'. split; [exact Hrun |]. rewrite Htr. vm_compute. reflexivity.
Defined.

(** X10.  When the client cannot be created, [main] lets the
    constructor's exception through: every file has been parsed and the
    table built by then, but no upsert is sent and the destination is
    untouched. *)
Theorem client_error_ends_the_run
        (http_get : string -> string + Response)
        (zip_parse : bytes -> Exc + list Member)
        (read_csv : bytes -> Exc + DataFrame)
        (promote : list DataFrame -> string -> Cell -> Cell)
        (new_client : string -> string -> Exc + Client)
        (remote_execute : Client -> Request -> Store -> Exc + (Store * list PyRecord))
        (url key : string) (w w1 : World)
        (h : Handle) (hs : list Handle) (ts : list DataFrame) (e : Exc) :
  download_and_unzip_data http_get zip_parse DOWNLOAD_URL w = (Return (h :: hs), w1) ->
  Forall2 (fun h t => read_csv (h_data h) = inr t) (h :: hs) ts ->
  new_client url key = inl e ->
  exists w',
    main http_get zip_parse read_csv promote new_client remote_execute url key w = (Raise e, w')
    /\ trace w' = trace w1 ++ map (fun h => EvReadCsv (h_name h)) (h :: hs)
                           ++ [EvCreateClient url key]
    /\ remote w' = remote w1
    /\ heap w' = <[fresh (dom (heap w1)) := Pandas.concat promote ts]> (heap w1).
Proof.
  intros Hd Hall He.
  assert (Hne : h :: hs <> []) by done.
  rewrite (main_past_fetch _ _ read_csv promote new_client remote_execute url key w _ w1 Hne Hd).
  destruct (combine_spec read_csv promote h hs ts w1 Hall) as (w2 & Hrun & Hh & Htr & Hr).
  rewrite (bind_Return _ _ _ _ _ Hrun).
  unfold create_client, emit, raise, bind. rewrite He.
  eexists. split; [reflexivity |]. cbn [trace remote heap].
  rewrite Htr, Hr, Hh, <- app_assoc. done.
Qed.

Lemma client_error_ends_the_run_witness :
  exists w',
    main Demo.http_ok Demo.unzip Demo.read_csv Demo.keep Demo.new_client_bad Demo.accepting
         "https://db.example" "secret" Demo.empty_world
    = (Raise (PyException "SupabaseException" "Invalid URL"), w')
    /\ remote w' = [].
Proof.
  destruct (client_error_ends_the_run
              Demo.http_ok Demo.unzip Demo.read_csv Demo.keep Demo.new_client_bad Demo.accepting
              "https://db.example" "secret" Demo.empty_world
              (snd (download_and_unzip_data Demo.http_ok Demo.unzip DOWNLOAD_URL
                      Demo.empty_world))
              (mkHandle "ProductOverview_1.csv" (repeat Byte.x00 3))
              [mkHandle "ProductOverview_2.csv" (repeat Byte.x00 2)]
              [Demo.table 3; Demo.table 2]
              (PyException "SupabaseException" "Invalid URL"))
    as (w' & Hrun & _ & Hr & _).
  - vm_compute. reflexivity.
  - repeat constructor.
  - reflexivity.
  - exists w'. split; [exact Hrun |]. rewrite Hr. reflexivity.
Defined.

(** ** Whole runs *)

Section WholeRun.

Variable http_get : string -> string + Response.
Variable zip_parse : bytes -> Exc + list Member.
Variable read_csv : bytes -> Exc + DataFrame.
Variable promote : list DataFrame -> string -> Cell -> Cell.
Variable new_client : string -> string -> Exc + Client.
Variable remote_execute : Client -> Request -> Store -> Exc + (Store * list PyRecord).

Lemma create_client_ok url key client w :
  new_client url key = inr client ->
  create_client new_client url key w
  = (Return client,
     mkWorld (environ w) (heap w) (remote w) (stdout w)
             (trace w ++ [EvCreateClient url key])).
Proof. intros H. unfold create_client, emit, ret, bind. by rewrite H. Qed.

(** [main] up to the call of the writer, when the files parse and the
    client is there: the writer runs on the new table in a world that
    has seen the reads and the constructor. *)
Lemma main_to_writer url key w w1 h hs ts client :
  download_and_unzip_data http_get zip_parse DOWNLOAD_URL w = (Return (h :: hs), w1) ->
  Forall2 (fun h t => read_csv (h_data h) = inr t) (h :: hs) ts ->
  new_client url key = inr client ->
  exists w3,
    main http_get zip_parse read_csv promote new_client remote_execute url key w
    = bind (upload_dataframe_to_supabase remote_execute (fresh (dom (heap w1))) client)
           (fun _ => print "Script finished.") w3
    /\ heap w3 !! fresh (dom (heap w1)) = Some (Pandas.concat promote ts)
    /\ trace w3 = trace w1 ++ map (fun h => EvReadCsv (h_name h)) (h :: hs)
                           ++ [EvCreateClient url key]
    /\ remote w3 = remote w1.
Proof.
  intros Hd Hall Hn.
  assert (Hne : h :: hs <> []) by done.
  rewrite (main_past_fetch _ _ read_csv promote new_client remote_execute url key w _ w1 Hne Hd).
  destruct (combine_spec read_csv promote h hs ts w1 Hall) as (w2 & Hrun & Hh & Htr & Hr).
  rewrite (bind_Return _ _ _ _ _ Hrun).
  rewrite (bind_Return _ _ _ _ _ (create_client_ok url key client w2 Hn)).
  eexists. split; [reflexivity |]. cbn [heap trace remote].
  rewrite Hh, Htr, Hr, <- app_assoc. split; [apply lookup_insert_eq | done].
Qed.

End WholeRun.

(** X11.  When the files parse, the client is there and the store takes
    every request, [main] returns after this sequence of outside calls:
    the GET, one parse per handle in order, the client constructor, then
    for each batch its upsert and a pause of one second; the batches put
    end to end are the records of all the rows of all the files, and the
    last line printed is the closing one. *)
Theorem full_run_uploads_every_row
        (http_get : string -> string + Response)
        (zip_parse : bytes -> Exc + list Member)
        (read_csv : bytes -> Exc + DataFrame)
        (promote : list DataFrame -> string -> Cell -> Cell)
        (new_client : string -> string -> Exc + Client)
        (remote_execute : Client -> Request -> Store -> Exc + (Store * list PyRecord))
        (url key : string) (w w1 : World)
        (h : Handle) (hs : list Handle) (ts : list DataFrame) (client : Client) :
  download_and_unzip_data http_get zip_parse DOWNLOAD_URL w = (Return (h :: hs), w1) ->
  Forall2 (fun h t => read_csv (h_data h) = inr t) (h :: hs) ts ->
  new_client url key = inr client ->
  df_empty (Pandas.concat promote ts) = false ->
  (forall c r s, exists s' d, remote_execute c r s = inr (s', d)) ->
  exists calls w',
    main http_get zip_parse read_csv promote new_client remote_execute url key w = (Return tt, w')
    /\ trace w' = trace w1 ++ map (fun h => EvReadCsv (h_name h)) (h :: hs)
                           ++ [EvCreateClient url key]
                           ++ flat_map (batch_events client) calls
    /\ concat calls = records_of (Pandas.concat promote ts)
    /\ length (concat calls) = list_sum (map df_len ts)
    /\ last (stdout w') = Some "Script finished.".
Proof.
  intros Hd Hall Hn Hne Htot.
  destruct (main_to_writer http_get zip_parse read_csv promote new_client remote_execute
              url key w w1 h hs ts client Hd Hall Hn) as (w3 & -> & Hdf & Htr & Hr).
  set (t := Pandas.concat promote ts) in *.
  set (calls := map (batch (records_of t)) (seq 0 (ceil_div (df_len t) batch_size))).
  destruct (commit_total remote_execute client calls (remote w3) Htot) as [s' Hc].
  destruct (upload_ok_spec remote_execute _ client w3 t s' Hdf Hne Hc)
    as (w4 & Hrun & Htr4 & _ & _).
  assert (Hcat : concat calls = records_of t).
  { unfold calls. rewrite <- records_of_length. apply batches_concat. }
  exists calls. eexists. rewrite (bind_Return _ _ _ _ _ Hrun). unfold print.
  split; [reflexivity |]. cbn [trace stdout].
  split; [by rewrite Htr4, Htr, <- !app_assoc |]. split; [done |].
  split; [| apply last_snoc].
  rewrite Hcat, records_of_length. apply concat_len.
Qed.

Lemma full_run_uploads_every_row_witness :
  exists w',
    main Demo.http_ok Demo.unzip Demo.read_csv Demo.keep Demo.new_client Demo.accepting
         "https://db.example" "secret" Demo.empty_world = (Return tt, w')
    /\ last (stdout w') = Some "Script finished.".
Proof.
  destruct (full_run_uploads_every_row
              Demo.http_ok Demo.unzip Demo.read_csv Demo.keep Demo.new_client Demo.accepting
              "https://db.example" "secret" Demo.empty_world
              (snd (download_and_unzip_data Demo.http_ok Demo.unzip DOWNLOAD_URL
                      Demo.empty_world))
              (mkHandle "ProductOverview_1.csv" (repeat Byte.x00 3))
              [mkHandle "ProductOverview_2.csv" (repeat Byte.x00 2)]
              [Demo.table 3; Demo.table 2] Demo.client)
    as (calls & w' & Hrun & _ & _ & _ & Hout).
  - vm_compute. reflexivity.
  - repeat constructor.
  - reflexivity.
  - reflexivity.
  - intros c r s. exists (s ++ req_rows r), (req_rows r). reflexivity.
  - exists w'. split; [exact Hrun | exact Hout].
Defined.

(** X12.  When the matching files parse but hold no row between them,
    [main] still creates the client; the writer then prints that there
    is nothing to upload, no upsert is sent, and the run ends with the
    closing line. *)
Theorem run_without_rows_sends_nothing
        (http_get : string -> string + Response)
        (zip_parse : bytes -> Exc + list Member)
        (read_csv : bytes -> Exc + DataFrame)
        (promote : list DataFrame -> string -> Cell -> Cell)
        (new_client : string -> string -> Exc + Client)
        (remote_execute : Client -> Request -> Store -> Exc + (Store * list PyRecord))
        (url key : string) (w w1 : World)
        (h : Handle) (hs : list Handle) (ts : list DataFrame) (client : Client) :
  download_and_unzip_data http_get zip_parse DOWNLOAD_URL w = (Return (h :: hs), w1) ->
  Forall2 (fun h t => read_csv (h_data h) = inr t) (h :: hs) ts ->
  new_client url key = inr client ->
  Forall (fun t => rows t = []) ts ->
  exists w' out,
    main http_get zip_parse read_csv promote new_client remote_execute url key w = (Return tt, w')
    /\ trace w' = trace w1 ++ map (fun h => EvReadCsv (h_name h)) (h :: hs)
                           ++ [EvCreateClient url key]
    /\ remote w' = remote w1
    /\ stdout w' = out ++ ["DataFrame is empty. Nothing to upload."; "Script finished."].
Proof.
  intros Hd Hall Hn Hrows.
  destruct (main_to_writer http_get zip_parse read_csv promote new_client remote_execute
              url key w w1 h hs ts client Hd Hall Hn) as (w3 & -> & Hdf & Htr & Hr).
  assert (He : df_empty (Pandas.concat promote ts) = true).
  { unfold df_empty, Pandas.concat. cbn [columns rows].
    generalize (Pandas.union_columns ts), (promote ts). intros cols f.
    assert (flat_map (fun t => map (fun r => Pandas.cast f cols
                                               (Pandas.reindex (columns t) cols r))
                                   (rows t)) ts = [])
      as ->; [| by destruct cols].
    clear -Hrows. induction Hrows as [|t ts' Ht _ IH]; [done |].
    simpl. by rewrite Ht, IH. }
  rewrite (bind_Return _ _ _ _ _ (upload_empty remote_execute _ client w3 _ Hdf He)).
  unfold print. eexists. exists (stdout w3). split; [reflexivity |].
  cbn [trace remote stdout]. by rewrite <- app_assoc.
Qed.

Lemma run_without_rows_sends_nothing_witness :
  exists w',
    main Demo.http_ok Demo.unzip (fun _ => inr (Demo.table 0)) Demo.keep Demo.new_client
         Demo.accepting "https://db.example" "secret" Demo.empty_world = (Return tt, w')
    /\ remote w' = [].
Proof.
  destruct (run_without_rows_sends_nothing
              Demo.http_ok Demo.unzip (fun _ => inr (Demo.table 0)) Demo.keep Demo.new_client
              Demo.accepting "https://db.example" "secret" Demo.empty_world
              (snd (download_and_unzip_data Demo.http_ok Demo.unzip DOWNLOAD_URL
                      Demo.empty_world))
              (mkHandle "ProductOverview_1.csv" (repeat Byte.x00 3))
              [mkHandle "ProductOverview_2.csv" (repeat Byte.x00 2)]
              [Demo.table 0; Demo.table 0] Demo.client)
    as (w' & out & Hrun & _ & Hr & _).
  - vm_compute. reflexivity.
  - repeat constructor.
  - reflexivity.
  - repeat constructor.
  - exists w'. split; [exact Hrun |]. rewrite Hr. reflexivity.
Defined.

(** ** Files with different headers *)

Section OuterJoin.

Implicit Types (cols acc : list string) (r : list Cell) (c : string).

Lemma add_columns_cons acc c cols :
  Pandas.add_columns acc (c :: cols)
  = Pandas.add_columns (if existsb (String.eqb c) acc then acc else acc ++ [c]) cols.
Proof. done. Qed.

Lemma add_columns_NoDup acc cols :
  NoDup acc -> NoDup (Pandas.add_columns acc cols).
Proof.
  revert acc. induction cols as [|c cols IH]; intros acc Hnd; [done |].
  rewrite add_columns_cons. apply IH.
  destruct (existsb (String.eqb c) acc) eqn:E; [done |].
  apply NoDup_app. split; [done |]. split; [| apply NoDup_singleton].
  intros x Hx Hx'. apply list_elem_of_singleton in Hx'. subst x.
  apply list_elem_of_In, existsb_eqb_In in Hx. congruence.
Qed.

Lemma add_columns_In acc cols c :
  In c (Pandas.add_columns acc cols) <-> In c acc \/ In c cols.
Proof.
  revert acc. induction cols as [|c' cols IH]; intros acc.
  - simpl. tauto.
  - rewrite add_columns_cons, IH. simpl.
    destruct (existsb (String.eqb c') acc) eqn:E.
    + apply existsb_eqb_In in E. split; [tauto |].
      intros [H | [<- | H]]; tauto.
    + rewrite in_app_iff. simpl. tauto.
Qed.

Lemma union_columns_fold_NoDup ts acc :
  NoDup acc -> NoDup (fold_left (fun a t => Pandas.add_columns a (columns t)) ts acc).
Proof.
  revert acc. induction ts as [|t ts IH]; intros acc Hnd; [done |].
  simpl. by apply IH, add_columns_NoDup.
Qed.

Lemma union_columns_fold_In ts acc c :
  In c (fold_left (fun a t => Pandas.add_columns a (columns t)) ts acc)
  <-> In c acc \/ exists t, In t ts /\ In c (columns t).
Proof.
  revert acc. induction ts as [|t ts IH]; intros acc.
  - simpl. split; [tauto | intros [H | (t & [] & _)]; done].
  - simpl. rewrite IH, add_columns_In. split.
    + intros [[H | H] | (t' & Ht' & Hc)]; [tauto | right; exists t; tauto |].
      right. exists t'. tauto.
    + intros [H | (t' & [<- | Ht'] & Hc)]; [tauto | tauto |].
      right. by exists t'.
Qed.

Lemma union_columns_NoDup ts : NoDup (Pandas.union_columns ts).
Proof. apply union_columns_fold_NoDup, NoDup_nil_2. Qed.

Lemma union_columns_In ts c :
  In c (Pandas.union_columns ts) <-> exists t, In t ts /\ In c (columns t).
Proof.
  unfold Pandas.union_columns. rewrite union_columns_fold_In. simpl. tauto.
Qed.

(** Under a label of the new header a re-laid row holds the cell the
    row had under it, or NaN when it had none. *)
Lemma cell_at_reindex old new r c :
  In c new ->
  Pandas.cell_at new (Pandas.reindex old new r) c
  = Some (default CNaN (Pandas.cell_at old r c)).
Proof.
  unfold Pandas.reindex. induction new as [|c' new IH]; intros Hin; [done |].
  simpl. destruct (String.eqb_spec c c') as [-> | Hne].
  - by destruct (Pandas.cell_at old r c').
  - apply IH. destruct Hin as [-> | Hin]; done.
Qed.

Lemma cell_at_absent cols r c : ~ In c cols -> Pandas.cell_at cols r c = None.
Proof.
  revert r. induction cols as [|c' cols IH]; intros r Hnot; [done |].
  destruct r as [|v r]; [done |]. simpl.
  destruct (String.eqb_spec c c') as [-> | _]; [destruct Hnot; by left |].
  apply IH. intros H. apply Hnot. by right.
Qed.

Lemma cell_at_map (f : Cell -> Cell) cols r c :
  Pandas.cell_at cols (map f r) c = f <$> Pandas.cell_at cols r c.
Proof.
  revert r. induction cols as [|c' cols IH]; intros [|v r]; try done.
  simpl. by destruct (String.eqb c c').
Qed.

(** With no label twice, the [dict] of a row answers a label with the
    cell of the row under it. *)
Lemma fold_insert_lookup cols r (d : PyRecord) c :
  NoDup cols ->
  fold_left (fun d kv => <[fst kv := snd kv]> d) (combine cols r) d !! c
  = match Pandas.cell_at cols r c with
    | Some v => Some v
    | None => d !! c
    end.
Proof.
  revert r d. induction cols as [|c' cols IH]; intros r d Hnd; [done |].
  destruct r as [|v r]; [done |].
  apply NoDup_cons in Hnd as [Hc' Hnd]. simpl. rewrite IH by done.
  destruct (String.eqb_spec c c') as [-> | Hne].
  - rewrite cell_at_absent by (by rewrite <- list_elem_of_In).
    apply lookup_insert_eq.
  - destruct (Pandas.cell_at cols r c); [done |]. by apply lookup_insert_ne.
Qed.

Lemma to_record_lookup cols r c :
  NoDup cols -> Pandas.to_record cols r !! c = Pandas.cell_at cols r c.
Proof.
  intros Hnd. unfold Pandas.to_record. rewrite fold_insert_lookup by done.
  by destruct (Pandas.cell_at cols r c).
Qed.

Variable promote : list DataFrame -> string -> Cell -> Cell.

Lemma cell_at_cast (f : string -> Cell -> Cell) cols r c :
  Pandas.cell_at cols (Pandas.cast f cols r) c = f c <$> Pandas.cell_at cols r c.
Proof.
  unfold Pandas.cast. revert r. induction cols as [|c' cols IH]; intros [|v r]; try done.
  simpl. destruct (String.eqb_spec c c') as [-> | _]; [done | apply IH].
Qed.

Lemma concat_rows_In ts t r :
  In t ts -> In r (rows t) ->
  In (Pandas.cast (promote ts) (columns (Pandas.concat promote ts))
        (Pandas.reindex (columns t) (columns (Pandas.concat promote ts)) r))
     (rows (Pandas.concat promote ts)).
Proof.
  intros Ht Hr. unfold Pandas.concat. cbn [rows columns].
  apply in_flat_map. exists t. split; [done |].
  apply in_map_iff. by exists r.
Qed.

Lemma concat_wf ts : df_wf (Pandas.concat promote ts).
Proof.
  unfold df_wf, Pandas.concat. cbn [rows columns]. apply Forall_forall.
  intros r Hr. apply list_elem_of_In, in_flat_map in Hr as (t & _ & Hr).
  apply in_map_iff in Hr as (r0 & <- & _). unfold Pandas.cast, Pandas.reindex.
  apply length_zip_with_l_eq. by rewrite length_map.
Qed.

(** The cell of a combined row under a label of the combined header. *)
Lemma concat_cell ts t r c :
  In c (columns (Pandas.concat promote ts)) ->
  Pandas.cell_at (columns (Pandas.concat promote ts))
    (Pandas.cast (promote ts) (columns (Pandas.concat promote ts))
       (Pandas.reindex (columns t) (columns (Pandas.concat promote ts)) r)) c
  = Some (promote ts c (default CNaN (Pandas.cell_at (columns t) r c))).
Proof.
  intros Hc. by rewrite cell_at_cast, cell_at_reindex.
Qed.

Lemma records_map_labels_to_cells_aux (t : DataFrame) (i : nat) r :
  NoDup (columns t) ->
  rows t !! i = Some r ->
  exists rec,
    records_of t !! i = Some rec
    /\ forall c, rec !! c = Pandas.replace_cell <$> Pandas.cell_at (columns t) r c.
Proof.
  intros Hnd Hr.
  exists (Pandas.to_record (columns t) (map Pandas.replace_cell r)). split.
  - unfold records_of, Pandas.to_dict_records, Pandas.replace_na_nan. cbn [rows columns].
    by rewrite !list_lookup_fmap, Hr.
  - intros c. by rewrite to_record_lookup, cell_at_map.
Qed.

End OuterJoin.

(** X13.  When the files have different headers the builder still
    returns a well-formed table: its columns are the labels of all the
    files, each once; every row of every file is there, with one cell
    per column, holding under each label the cell it had in its file, or
    NaN under a label its file lacks, brought to the common type of the
    column. *)
Theorem combine_fills_missing_columns_with_NaN
        (read_csv : bytes -> Exc + DataFrame)
        (promote : list DataFrame -> string -> Cell -> Cell)
        (h : Handle) (hs : list Handle) (ts : list DataFrame) (w : World) :
  Forall2 (fun h t => read_csv (h_data h) = inr t) (h :: hs) ts ->
  exists l w' out,
    combine_csvs_to_dataframe read_csv promote (h :: hs) w = (Return l, w')
    /\ heap w' !! l = Some out
    /\ NoDup (columns out)
    /\ df_wf out
    /\ (forall c, In c (columns out) <-> exists t, In t ts /\ In c (columns t))
    /\ (forall t r, In t ts -> In r (rows t) ->
          exists r', In r' (rows out)
            /\ forall c, In c (columns out) ->
                 Pandas.cell_at (columns out) r' c
                 = Some (promote ts c (default CNaN (Pandas.cell_at (columns t) r c)))).
Proof.
  intros Hall.
  destruct (combine_spec read_csv promote h hs ts w Hall) as (w' & Hrun & Hh & _).
  exists (fresh (dom (heap w))), w', (Pandas.concat promote ts).
  split; [done |]. split; [rewrite Hh; apply lookup_insert_eq |].
  split; [apply union_columns_NoDup |]. split; [apply concat_wf |].
  split; [apply union_columns_In |].
  intros t r Ht Hr. eexists. split; [by apply concat_rows_In |].
  intros c Hc. by apply concat_cell.
Qed.

Lemma combine_fills_missing_columns_with_NaN_witness :
  exists l w',
    combine_csvs_to_dataframe (fun b => match b with
                                        | [] => inr Demo.narrow
                                        | _ => inr (Demo.table (length b))
                                        end) Demo.to_float
      [mkHandle "ProductOverview_1.csv" [Byte.x00];
       mkHandle "ProductOverview_2.csv" []] Demo.empty_world
    = (Return l, w')
    /\ heap w' !! l
       = Some (mkDF ["DSLD ID"; "Product Name"; "Bar Code"; "Market Status"]
                    [ [CFloat 0 0; CNaN; CNA; CNaN];
                      [CFloat 7 0; CNaN; CNaN; CStr "On Market"] ]).
Proof.
  destruct (combine_fills_missing_columns_with_NaN
              (fun b => match b with
                        | [] => inr Demo.narrow
                        | _ => inr (Demo.table (length b))
                        end) Demo.to_float
              (mkHandle "ProductOverview_1.csv" [Byte.x00])
              [mkHandle "ProductOverview_2.csv" []]
              [Demo.table 1; Demo.narrow] Demo.empty_world)
    as (l & w' & out & Hrun & Hout & _).
  - repeat constructor.
  - exists l, w'. split; [exact Hrun |].
    assert (E : (Return l, w')
                = combine_csvs_to_dataframe (fun b => match b with
                                                      | [] => inr Demo.narrow
                                                      | _ => inr (Demo.table (length b))
                                                      end) Demo.to_float
                    [mkHandle "ProductOverview_1.csv" [Byte.x00];
                     mkHandle "ProductOverview_2.csv" []] Demo.empty_world)
      by (symmetry; exact Hrun).
    vm_compute in E. injection E as -> ->. vm_compute. reflexivity.
Defined.

(** X14.  The records the writer builds answer every column label with
    the normalised cell of their row: for a table with no label twice,
    the [i]-th record maps a label to the cell of the [i]-th row under
    it, with NaN and NA turned into None, and has no entry for any other
    key. *)
Theorem records_map_labels_to_cells (t : DataFrame) (i : nat) (r : list Cell) :
  NoDup (columns t) ->
  rows t !! i = Some r ->
  exists rec,
    records_of t !! i = Some rec
    /\ forall c, rec !! c = Pandas.replace_cell <$> Pandas.cell_at (columns t) r c.
Proof. apply records_map_labels_to_cells_aux. Qed.

Lemma records_map_labels_to_cells_witness :
  exists rec,
    records_of (Demo.table 3) !! 1 = Some rec
    /\ rec !! "Product Name" = Some (CStr "Zinc")
    /\ rec !! "Bar Code" = Some CNone
    /\ rec !! "Brand Name" = None.
Proof.
  destruct (records_map_labels_to_cells (Demo.table 3) 1
              [CInt 1; CStr "Zinc"; CNA]) as (rec & Hrec & Hlook).
  - vm_compute. repeat constructor; set_solver.
  - reflexivity.
  - exists rec. split; [exact Hrec |]. rewrite !Hlook. by repeat split.
Defined.

(** X15.  Builder and writer together, where bringing a column to its
    common type leaves NaN as it is: for every row of every parsed file
    the records built from the combined table hold one that has None
    under every column the row's file lacks, and under each other column
    the row's cell, converted and normalised. *)
Theorem missing_column_is_sent_as_None
        (promote : list DataFrame -> string -> Cell -> Cell)
        (ts : list DataFrame) (t : DataFrame) (r : list Cell) :
  (forall c, promote ts c CNaN = CNaN) ->
  In t ts -> In r (rows t) ->
  exists rec,
    In rec (records_of (Pandas.concat promote ts))
    /\ (forall c, In c (columns (Pandas.concat promote ts)) -> ~ In c (columns t) ->
          rec !! c = Some CNone)
    /\ (forall c, In c (columns (Pandas.concat promote ts)) ->
          rec !! c
          = Some (Pandas.replace_cell
                    (promote ts c (default CNaN (Pandas.cell_at (columns t) r c))))).
Proof.
  intros Hnan Ht Hr.
  pose proof (concat_rows_In promote ts t r Ht Hr) as Hin.
  apply list_elem_of_In, list_elem_of_lookup in Hin as [i Hi].
  destruct (records_map_labels_to_cells_aux (Pandas.concat promote ts) i _
              (union_columns_NoDup ts) Hi) as (rec & Hrec & Hlook).
  exists rec. split; [apply list_elem_of_In; by eapply list_elem_of_lookup_2 |].
  assert (Hall : forall c, In c (columns (Pandas.concat promote ts)) ->
            rec !! c = Some (Pandas.replace_cell
                               (promote ts c
                                  (default CNaN (Pandas.cell_at (columns t) r c))))).
  { intros c Hc. by rewrite Hlook, concat_cell. }
  split; [| done]. intros c Hc Hnot. rewrite Hall by done.
  by rewrite cell_at_absent, Hnan.
Qed.

Lemma missing_column_is_sent_as_None_witness :
  exists rec,
    In rec (records_of (Pandas.concat Demo.to_float [Demo.table 1; Demo.narrow]))
    /\ rec !! "DSLD ID" = Some (CFloat 7 0)
    /\ rec !! "Product Name" = Some CNone.
Proof.
  destruct (missing_column_is_sent_as_None Demo.to_float
              [Demo.table 1; Demo.narrow] Demo.narrow
              [CInt 7; CStr "On Market"]) as (rec & Hin & Hmiss & Hall).
  - reflexivity.
  - right. by left.
  - by left.
  - exists rec. split; [exact Hin |]. split.
    + rewrite Hall; [reflexivity |]. vm_compute. by left.
    + apply Hmiss.
      * vm_compute. right. by left.
      * vm_compute. intros [H | [H | []]]; discriminate.
Defined.

(** ** What the builder reports *)

Section BuilderReport.

Variable read_csv : bytes -> Exc + DataFrame.
Variable promote : list DataFrame -> string -> Cell -> Cell.

Lemma combine_stdout h hs ts w :
  Forall2 (fun h t => read_csv (h_data h) = inr t) (h :: hs) ts ->
  stdout (snd (combine_csvs_to_dataframe read_csv promote (h :: hs) w))
  = stdout w ++ ["Combining CSV files into a single DataFrame...";
                 "Successfully combined data. Total rows: "
                 +:+ pretty (list_sum (map df_len ts))].
Proof.
  intros Hall. unfold combine_csvs_to_dataframe, print. unfold bind at 1.
  destruct (read_all read_csv (h :: hs) ts
              (mkWorld (environ w) (heap w) (remote w)
                       (stdout w ++ ["Combining CSV files into a single DataFrame..."])
                       (trace w)) Hall)
    as (w1' & Hrun & Htr & Hh & Hr & Ho).
  rewrite (bind_Return _ _ _ _ _ Hrun).
  unfold alloc, mutate, deref, ret, bind. cbn [heap environ remote stdout trace].
  rewrite lookup_alter_eq, lookup_insert_eq. cbn [fmap option_fmap option_map snd stdout].
  rewrite rename_identity, concat_len, Ho. cbn [stdout]. by rewrite <- app_assoc.
Qed.

End BuilderReport.

(** X16.  On files that parse the builder reads every handle once, in
    the order of the list, and reports on the console the number of rows
    of the combined table, which is the sum of the rows of the files. *)
Theorem combine_reads_in_order_and_reports_total
        (read_csv : bytes -> Exc + DataFrame)
        (promote : list DataFrame -> string -> Cell -> Cell)
        (h : Handle) (hs : list Handle) (ts : list DataFrame) (w : World) :
  Forall2 (fun h t => read_csv (h_data h) = inr t) (h :: hs) ts ->
  trace (snd (combine_csvs_to_dataframe read_csv promote (h :: hs) w))
  = trace w ++ map (fun h => EvReadCsv (h_name h)) (h :: hs)
  /\ stdout (snd (combine_csvs_to_dataframe read_csv promote (h :: hs) w))
     = stdout w ++ ["Combining CSV files into a single DataFrame...";
                    "Successfully combined data. Total rows: "
                    +:+ pretty (list_sum (map df_len ts))]
  /\ remote (snd (combine_csvs_to_dataframe read_csv promote (h :: hs) w)) = remote w.
Proof.
  intros Hall. split; [| split; [by apply combine_stdout |]].
  - destruct (combine_spec read_csv promote h hs ts w Hall) as (w' & Hrun & _ & Htr & _).
    by rewrite Hrun.
  - destruct (combine_spec read_csv promote h hs ts w Hall) as (w' & Hrun & _ & _ & Hr).
    by rewrite Hrun.
Qed.

Lemma combine_reads_in_order_and_reports_total_witness :
  stdout (snd (combine_csvs_to_dataframe Demo.read_csv Demo.keep
                 [mkHandle "ProductOverview_1.csv" (repeat Byte.x00 3);
                  mkHandle "ProductOverview_2.csv" (repeat Byte.x00 2)]
                 Demo.empty_world))
  = ["Combining CSV files into a single DataFrame...";
     "Successfully combined data. Total rows: 5"].
Proof.
  destruct (combine_reads_in_order_and_reports_total Demo.read_csv Demo.keep
              (mkHandle "ProductOverview_1.csv" (repeat Byte.x00 3))
              [mkHandle "ProductOverview_2.csv" (repeat Byte.x00 2)]
              [Demo.table 3; Demo.table 2] Demo.empty_world) as (_ & Hout & _).
  - repeat constructor.
  - rewrite Hout. reflexivity.
Defined.

(** ** Configuration from the [.env] file *)

Section DotenvFile.

Lemma dotenv_values_lookup (dotenv_file : list (string * string)) name v :
  NoDup (map fst dotenv_file) ->
  In (name, v) dotenv_file ->
  dotenv_values dotenv_file !! name = Some v.
Proof.
  unfold dotenv_values. generalize (∅ : gmap string string).
  induction dotenv_file as [|[k v'] l IH]; intros d Hnd Hin; [done |].
  simpl in *. apply NoDup_cons in Hnd as [Hk Hnd].
  destruct Hin as [E | Hin].
  - injection E as -> ->.
    rewrite fold_insert_other by (by rewrite <- list_elem_of_In).
    apply lookup_insert_eq.
  - by apply IH.
Qed.

Lemma load_dotenv_adds (dotenv_file : list (string * string)) name v w :
  environ w !! name = None ->
  NoDup (map fst dotenv_file) ->
  In (name, v) dotenv_file ->
  environ (snd (load_dotenv dotenv_file w)) !! name = Some v.
Proof.
  intros Henv Hnd Hin. unfold load_dotenv. cbn [snd environ].
  rewrite lookup_union_r by done. by apply dotenv_values_lookup.
Qed.

End DotenvFile.

(** X17.  Variables the process environment lacks are taken from the
    [.env] file: with the URL and the key named there once each and not
    empty, the guard passes and the script is [main] run with the
    file's two values. *)
Theorem dotenv_file_configures_main
        (dotenv_file : list (string * string))
        (http_get : string -> string + Response)
        (zip_parse : bytes -> Exc + list Member)
        (read_csv : bytes -> Exc + DataFrame)
        (promote : list DataFrame -> string -> Cell -> Cell)
        (new_client : string -> string -> Exc + Client)
        (remote_execute : Client -> Request -> Store -> Exc + (Store * list PyRecord))
        (w : World) (url key : string) :
  environ w !! "SUPABASE_URL" = None ->
  environ w !! "SUPABASE_SERVICE_KEY" = None ->
  NoDup (map fst dotenv_file) ->
  In ("SUPABASE_URL", url) dotenv_file ->
  In ("SUPABASE_SERVICE_KEY", key) dotenv_file ->
  url <> EmptyString -> key <> EmptyString ->
  script dotenv_file http_get zip_parse read_csv promote new_client remote_execute w
  = main http_get zip_parse read_csv promote new_client remote_execute url key
         (snd (load_dotenv dotenv_file w)).
Proof.
  intros Hu Hk Hnd Hinu Hink Hune Hkne. unfold script.
  by rewrite (bind_Return _ _ _ _ _
                (module_init_passes dotenv_file w url key
                   (load_dotenv_adds dotenv_file _ _ w Hu Hnd Hinu)
                   (load_dotenv_adds dotenv_file _ _ w Hk Hnd Hink) Hune Hkne)).
Qed.

Lemma dotenv_file_configures_main_witness :
  script Demo.dotenv_file Demo.http_404 Demo.unzip Demo.read_csv Demo.keep Demo.new_client
         Demo.accepting Demo.empty_world
  = main Demo.http_404 Demo.unzip Demo.read_csv Demo.keep Demo.new_client Demo.accepting
         "https://db.example" "secret"
         (snd (load_dotenv Demo.dotenv_file Demo.empty_world)).
Proof.
  apply (dotenv_file_configures_main Demo.dotenv_file Demo.http_404 Demo.unzip
           Demo.read_csv Demo.keep Demo.new_client Demo.accepting Demo.empty_world
           "https://db.example" "secret").
  - reflexivity.
  - reflexivity.
  - vm_compute. repeat constructor; set_solver.
  - by left.
  - right. by left.
  - discriminate.
  - discriminate.
Defined.


(** ** The records handed over *)

Section WriterSends.

Variable remote_execute : Client -> Request -> Store -> Exc + (Store * list PyRecord).

(** A list of batches is committed whole, or there is a first batch the
    store refuses. *)
Lemma commit_cases client (bs : list (list PyRecord)) (s : Store) :
  (exists s', commit remote_execute client bs s = inr s')
  \/ exists k b sk e,
       bs !! k = Some b
       /\ commit remote_execute client (take k bs) s = inr sk
       /\ remote_execute client (upsert_request b) sk = inl e.
Proof.
  revert s. induction bs as [|a bs IH]; intros s.
  - left. by exists s.
  - destruct (remote_execute client (upsert_request a) s) as [e | [s1 d]] eqn:E.
    + right. by exists 0, a, s, e.
    + destruct (IH s1) as [[s' H] | (k & b & sk & e & Hk & Hc & He)].
      * left. exists s'. simpl. by rewrite E.
      * right. exists (S k), b, sk, e. simpl. by rewrite E.
Qed.

Lemma first_batch_exists t : df_empty t = false -> 0 < ceil_div (df_len t) batch_size.
Proof.
  intros Hne. apply (lt_ceil_div _ _ _ batch_size_pos). unfold df_len.
  unfold df_empty in Hne. destruct (columns t); [done |].
  destruct (rows t); [done |]. simpl. lia.
Qed.

(** On a live, non-empty table the upserts sent are the batches of the
    normalised records from the first up to some batch, all of them when
    the store never refuses. *)
Lemma upload_calls df client w t :
  heap w !! df = Some t -> df_empty t = false ->
  exists m,
    1 <= m <= ceil_div (df_len t) batch_size
    /\ upsert_calls (trace (snd (upload_dataframe_to_supabase remote_execute df client w)))
       = upsert_calls (trace w) ++ map (batch (records_of t)) (seq 0 m)
    /\ ((forall c r s, exists s' d, remote_execute c r s = inr (s', d)) ->
        m = ceil_div (df_len t) batch_size).
Proof.
  intros Hdf Hne. pose proof (first_batch_exists t Hne) as Hn.
  set (n := ceil_div (df_len t) batch_size) in *.
  destruct (commit_cases client (map (batch (records_of t)) (seq 0 n)) (remote w))
    as [[s' Hc] | (k & b & sk & e & Hk & Hc & He)].
  - destruct (upload_ok_spec remote_execute df client w t s' Hdf Hne Hc)
      as (w' & Hrun & Htr & _).
    exists n. split; [lia |]. split; [| done].
    rewrite Hrun. cbn [snd]. by rewrite Htr, upsert_calls_app, upsert_calls_batches.
  - assert (Hkn : k < n).
    { apply lookup_lt_Some in Hk. by rewrite length_map, length_seq in Hk. }
    rewrite list_lookup_fmap, lookup_seq_lt in Hk by done. simpl in Hk.
    injection Hk as <-.
    rewrite <- fmap_take, take_seq, Nat.min_l in Hc by lia.
    assert (Hkt : k * batch_size < df_len t)
      by (by apply (lt_ceil_div _ _ _ batch_size_pos)).
    exists (S k). split; [lia |]. split.
    + destruct (is_Exception e) eqn:Hexc.
      * destruct (upload_fail_spec remote_execute df client w t k sk e
                    Hdf Hne Hkt Hc He Hexc) as (w' & Hrun & Htr & _).
        rewrite Hrun. cbn [snd]. rewrite Htr, !upsert_calls_app, upsert_calls_batches.
        rewrite seq_S, map_app. simpl. done.
      * destruct (upload_escape_spec remote_execute df client w t k sk e
                    Hdf Hne Hkt Hc He Hexc) as (w' & Hrun & Htr & _).
        rewrite Hrun. cbn [snd]. rewrite Htr, !upsert_calls_app, upsert_calls_batches.
        rewrite seq_S, map_app. simpl. done.
    + intros Htot. destruct (Htot client (upsert_request (batch (records_of t) k)) sk)
        as (s' & d & Hok). congruence.
Qed.

Lemma batch_clean (records : list PyRecord) k :
  Forall record_clean records -> Forall record_clean (batch records k).
Proof. intros H. unfold batch. by apply slice_clean. Qed.

End WriterSends.

(** C8.  The writer hands the store the records of the normalised
    table and nothing else.  On a live, non-empty table its upserts are
    the batches of those records, from the first on, and all of them
    when the store never refuses; there is one record per row, in row
    order; the record of a row answers each column label with the cell
    of the row, [np.nan] and [pd.NA] turned into [None] and every other
    cell as it was; so no record handed to an upsert holds either
    placeholder. *)
Theorem upload_sends_no_placeholder
        (remote_execute : Client -> Request -> Store -> Exc + (Store * list PyRecord))
        (df : positive) (client : Client) (w : World) (t : DataFrame) :
  heap w !! df = Some t ->
  df_empty t = false ->
  exists m,
    1 <= m <= ceil_div (df_len t) batch_size
    /\ upsert_calls (trace (snd (upload_dataframe_to_supabase remote_execute df client w)))
       = upsert_calls (trace w) ++ map (batch (records_of t)) (seq 0 m)
    /\ ((forall c r s, exists s' d, remote_execute c r s = inr (s', d)) ->
        concat (map (batch (records_of t)) (seq 0 m)) = records_of t)
    /\ Forall (Forall record_clean) (map (batch (records_of t)) (seq 0 m))
    /\ length (records_of t) = length (rows t)
    /\ (forall i r, rows t !! i = Some r ->
          exists rec, records_of t !! i = Some rec
            /\ record_clean rec
            /\ (NoDup (columns t) ->
                forall c, rec !! c
                          = Pandas.replace_cell <$> Pandas.cell_at (columns t) r c))
    /\ Pandas.replace_cell CNaN = CNone
    /\ Pandas.replace_cell CNA = CNone
    /\ (forall v, v <> CNaN -> v <> CNA -> Pandas.replace_cell v = v).
Proof.
  intros Hdf Hne.
  destruct (upload_calls remote_execute df client w t Hdf Hne) as (m & Hm & Hcalls & Hall).
  exists m. split; [done |]. split; [done |]. split.
  { intros Htot. rewrite (Hall Htot), <- records_of_length. apply batches_concat. }
  split.
  { apply Forall_forall. intros b Hb.
    apply list_elem_of_In, in_map_iff in Hb as (k & <- & _).
    apply batch_clean, records_of_clean. }
  split; [apply records_of_length |]. split.
  { intros i r Hr.
    exists (Pandas.to_record (columns t) (map Pandas.replace_cell r)).
    assert (Hrec : records_of t !! i
                   = Some (Pandas.to_record (columns t) (map Pandas.replace_cell r))).
    { unfold records_of, Pandas.to_dict_records, Pandas.replace_na_nan.
      cbn [rows columns]. by rewrite !list_lookup_fmap, Hr. }
    split; [done |]. split.
    - pose proof (records_of_clean t) as Hclean. rewrite Forall_forall in Hclean.
      apply Hclean. by eapply list_elem_of_lookup_2.
    - intros Hnd c. by rewrite to_record_lookup, cell_at_map. }
  split; [done |]. split; [done |]. by intros [].
Qed.

Lemma upload_sends_no_placeholder_witness :
  exists rec,
    upsert_calls (trace (snd (upload_dataframe_to_supabase Demo.accepting 1%positive
                                Demo.client (Demo.world_with 3)))) = [records_of (Demo.table 3)]
    /\ records_of (Demo.table 3) !! 0 = Some rec
    /\ rec !! "DSLD ID" = Some (CInt 0)
    /\ rec !! "Product Name" = Some CNone
    /\ rec !! "Bar Code" = Some CNone.
Proof.
  destruct (upload_sends_no_placeholder Demo.accepting 1%positive Demo.client
              (Demo.world_with 3) (Demo.table 3))
    as (m & Hm & Hcalls & Hcat & _ & _ & Hrec & _).
  - reflexivity.
  - reflexivity.
  - destruct (Hrec 0 [CInt 0; CNaN; CNA] eq_refl) as (rec & Hr & _ & Hlook).
    exists rec. split.
    + rewrite Hcalls. assert (m = 1) as -> by (vm_compute in Hm; lia).
      reflexivity.
    + split; [exact Hr |].
      rewrite !Hlook by (vm_compute; repeat constructor; set_solver).
      by repeat split.
Defined.
